(** * pyriemann.estimation: covariance estimation transforms

    A shallow embedding of [pyriemann/estimation.py]: the four
    scikit-learn style transformers [Covariances], [ERPCovariances],
    [XdawnCovariances] and [CospCovariances], together with the helper
    [_nextpow2].

    Python objects are records, methods are computations in a small
    state-and-exception monad over the receiver, numpy arrays are nested
    lists with their shape, and floating point numbers are an abstract
    scalar type: every statement below is about the orchestration
    (shapes, order, which primitive is called on what), never about
    rounding. *)

From Stdlib Require Import String ZArith List Bool Lia Sorted.
From Stdlib Require QArith.
Import ListNotations.
Open Scope Z_scope.

Set Implicit Arguments.

(** ** Python exceptions and results *)

Inductive exn : Type :=
| TypeError (msg : string)
| ValueError (msg : string)
| IndexError (msg : string)
| AttributeError (msg : string)
| LinAlgError (msg : string).

Inductive result (A : Type) : Type :=
| Ok (a : A)
| Raise (e : exn).

Arguments Ok {A} a.
Arguments Raise {A} e.

Definition result_map {A B} (f : A -> B) (r : result A) : result B :=
  match r with
  | Ok a => Ok (f a)
  | Raise e => Raise e
  end.

Definition result_bind {A B} (r : result A) (f : A -> result B) : result B :=
  match r with
  | Ok a => f a
  | Raise e => Raise e
  end.

(** [mapM f l] runs [f] on the elements of [l] from left to right and
    stops at the first exception. *)
Fixpoint mapM {A B} (f : A -> result B) (l : list A) : result (list B) :=
  match l with
  | [] => Ok []
  | a :: l' =>
      result_bind (f a) (fun b =>
      result_bind (mapM f l') (fun bs => Ok (b :: bs)))
  end.

(** ** Python values that reach a constructor argument *)

Inductive pyval : Type :=
| PyNone
| PyBool (b : bool)
| PyInt (z : Z)
| PyFloat (mantissa exponent : Z)
| PyStr (s : string).

Inductive pyclass : Type :=
| cls_object | cls_NoneType | cls_int | cls_bool | cls_float | cls_str.

Definition pyclass_eqb (c d : pyclass) : bool :=
  match c, d with
  | cls_object, cls_object | cls_NoneType, cls_NoneType
  | cls_int, cls_int | cls_bool, cls_bool | cls_float, cls_float
  | cls_str, cls_str => true
  | _, _ => false
  end.

Definition type_of (v : pyval) : pyclass :=
  match v with
  | PyNone => cls_NoneType
  | PyBool _ => cls_bool
  | PyInt _ => cls_int
  | PyFloat _ _ => cls_float
  | PyStr _ => cls_str
  end.

(** Method resolution order of the builtin classes: [bool] derives from
    [int], everything derives from [object]. *)
Definition mro (c : pyclass) : list pyclass :=
  match c with
  | cls_object => [cls_object]
  | cls_bool => [cls_bool; cls_int; cls_object]
  | c => [c; cls_object]
  end.

Definition isinstance (v : pyval) (c : pyclass) : bool :=
  existsb (pyclass_eqb c) (mro (type_of v)).

Definition is_None (v : pyval) : bool :=
  match v with
  | PyNone => true
  | _ => false
  end.

(** What a slice bound accepts: objects with [__index__]. *)
Definition py_index (v : pyval) : result Z :=
  match v with
  | PyInt z => Ok z
  | PyBool b => Ok (if b then 1 else 0)
  | _ => Raise (TypeError "slice indices must be integers or None or have an __index__ method")
  end.

(** ** Methods: state of the receiver threaded through, exceptions

    A raised exception keeps the mutations made before it, as in Python. *)

Definition method (S A : Type) : Type := S -> result A * S.

Definition ret {S A} (a : A) : method S A := fun s => (Ok a, s).

Definition raise {S A} (e : exn) : method S A := fun s => (Raise e, s).

Definition bind {S A B} (m : method S A) (f : A -> method S B) : method S B :=
  fun s =>
    match m s with
    | (Ok a, s') => f a s'
    | (Raise e, s') => (Raise e, s')
    end.

Definition get {S} : method S S := fun s => (Ok s, s).

Definition put {S} (s : S) : method S unit := fun _ => (Ok tt, s).

Definition lift {S A} (r : result A) : method S A := fun s => (r, s).

Declare Scope method_scope.
Delimit Scope method_scope with method.
Notation "x <- m ;; k" := (bind m (fun x => k))
  (at level 61, m at next level, right associativity) : method_scope.
Notation "m ;; k" := (bind m (fun _ => k))
  (at level 61, right associativity) : method_scope.

(** [for x in l: body x] *)
Fixpoint for_each {S A} (l : list A) (body : A -> method S unit)
  : method S unit :=
  match l with
  | [] => ret tt
  | a :: l' => bind (body a) (fun _ => for_each l' body)
  end.

(** ** [_nextpow2]

<<
def _nextpow2(i):
    n = 1
    while n < i:
        n *= 2
    return n
>>
    The loop is run with fuel; [None] means the fuel ran out before the
    loop condition became false. *)

Fixpoint nextpow2_while (fuel : nat) (n i : Z) : option Z :=
  match fuel with
  | O => None
  | S fuel' => if n <? i then nextpow2_while fuel' (n * 2) i else Some n
  end.

Definition _nextpow2 (fuel : nat) (i : Z) : option Z :=
  nextpow2_while fuel 1 i.

(** Fuel that is enough for [_nextpow2 i]. *)
Definition nextpow2_fuel (i : Z) : nat := S (Z.to_nat i).

(** ** numpy arrays

    A 2-D array is the list of its rows; a batch of trials is a 3-D array
    of shape [(n_trials, n_channels, n_samples)], kept with its shape so
    that an empty selection still knows its trailing dimensions. *)

(** Class labels are integers; the label array [y] is a list of them. *)
Abbreviation label := Z (only parsing).

(** numpy's floating point numbers and the operations the code reaches. *)
Class Scalars : Type := {
  scalar : Type;
  szero : scalar;
  sadd : scalar -> scalar -> scalar;
  smul : scalar -> scalar -> scalar;
  (** [sdivn x n] is [x / n] for a count [n] ([nan] when [n] is 0). *)
  sdivn : scalar -> nat -> scalar
}.

Section Arrays.

Context {SC : Scalars}.

Definition Matrix : Type := list (list scalar).

Record ndarray3 : Type := mk_ndarray3 {
  n_trials : nat;
  n_channels : nat;
  n_samples : nat;
  trials : list Matrix
}.

Definition is_matrix (r c : nat) (M : Matrix) : Prop :=
  length M = r /\ Forall (fun row => length row = c) M.

(** The shape invariant every ndarray satisfies. *)
Definition is_ndarray3 (X : ndarray3) : Prop :=
  length (trials X) = n_trials X /\
  Forall (is_matrix (n_channels X) (n_samples X)) (trials X).

(** [y == c], elementwise. *)
Definition eq_mask (y : list label) (c : label) : list bool :=
  map (fun l => Z.eqb l c) y.

Fixpoint select_mask (l : list Matrix) (mask : list bool) : list Matrix :=
  match l, mask with
  | x :: l', b :: mask' =>
      if b then x :: select_mask l' mask' else select_mask l' mask'
  | _, _ => []
  end.

(** [X[mask, :, :]]: boolean indexing along the trial axis; numpy refuses
    a mask whose length is not the length of that axis. *)
Definition bool_index (X : ndarray3) (mask : list bool) : result ndarray3 :=
  if Nat.eqb (length mask) (n_trials X) then
    let sel := select_mask (trials X) mask in
    Ok (mk_ndarray3 (length sel) (n_channels X) (n_samples X) sel)
  else
    Raise (IndexError "boolean index did not match indexed array along axis 0").

Definition entry (M : Matrix) (r s : nat) : scalar :=
  nth s (nth r M []) szero.

Definition ssum (l : list scalar) : scalar := fold_left sadd l szero.

(** [numpy.mean(A, axis=0)]: entrywise sum over the trials divided by
    their number; shape [(n_channels, n_samples)] whatever the number of
    trials. *)
Definition numpy_mean_axis0 (A : ndarray3) : Matrix :=
  map (fun r =>
         map (fun s =>
                sdivn (ssum (map (fun M => entry M r s) (trials A)))
                      (n_trials A))
             (seq 0 (n_samples A)))
      (seq 0 (n_channels A)).

Definition cols (M : Matrix) : nat :=
  match M with
  | [] => O
  | row :: _ => length row
  end.

Definition column (j : nat) (M : Matrix) : list scalar :=
  map (fun row => nth j row szero) M.

(** [M.T] *)
Definition transpose (M : Matrix) : Matrix :=
  map (fun j => column j M) (seq 0 (cols M)).

(** Number of elements a slice [0:k] keeps on an axis of length [n]:
    a negative bound counts from the end, a bound past the end is
    clipped. *)
Definition py_slice_stop (n : nat) (k : Z) : nat :=
  Z.to_nat (if k <? 0 then Z.max (Z.of_nat n + k) 0
            else Z.min k (Z.of_nat n)).

(** [M[:, 0:k]] *)
Definition slice_columns (k : Z) (M : Matrix) : Matrix :=
  map (firstn (py_slice_stop (cols M) k)) M.

Definition vdot (u v : list scalar) : scalar :=
  ssum (map (fun p => smul (fst p) (snd p)) (combine u v)).

(** [numpy.dot(A, B)] for 2-D arrays. *)
Definition numpy_dot (A B : Matrix) : Matrix :=
  map (fun a => map (fun j => vdot a (column j B)) (seq 0 (cols B))) A.

(** [numpy.concatenate(l, axis=0)] *)
Definition numpy_concatenate (l : list Matrix) : result Matrix :=
  match l with
  | [] => Raise (ValueError "need at least one array to concatenate")
  | _ => Ok (concat l)
  end.

(** [numpy.unique(y)]: the sorted distinct values of [y]. *)
Fixpoint insert_unique (x : label) (l : list label) : list label :=
  match l with
  | [] => [x]
  | h :: t =>
      if x <? h then x :: l
      else if x =? h then l
      else h :: insert_unique x t
  end.

Definition numpy_unique (y : list label) : list label :=
  fold_right insert_unique [] y.

End Arrays.

(** ** External collaborators

    [numpy.linalg.svd] is numpy's; [pyriemann.utils.covariance] and
    [pyriemann.spatialfilters] are imported by the module but are not
    part of it. *)

Class Externals {SC : Scalars} : Type := {
  (** [numpy.linalg.svd(P)] returns [(U, s, Vh)] or raises
      [LinAlgError]. *)
  numpy_linalg_svd : Matrix -> result (Matrix * list scalar * Matrix);
  (** The estimator registry ([_check_est]): a name resolves to a rule
      that maps one channel-by-sample array to one covariance matrix, or
      the lookup raises. *)
  check_est : string -> result (Matrix -> Matrix);
  (** [cospectrum(X, window, overlap, fmin, fmax, fs)] of
      [utils.covariance]: a stack of per-frequency-bin complex matrices,
      a complex number being the pair of its real and imaginary parts. *)
  cospectrum :
    Matrix -> Z -> scalar -> option scalar -> option scalar ->
    option scalar -> result (list (list (list (scalar * scalar))));
  (** The learning procedure of [spatialfilters.Xdawn]: filters and
      evoked responses. *)
  Xdawn_learn :
    Z -> option (list label) -> ndarray3 -> list label ->
    result (Matrix * Matrix)
}.

Section Estimation.

Context {SC : Scalars} {EX : Externals}.

(** With [full_matrices=True], the default, [U] is square of the side of
    the row count of its argument. *)
Definition svd_shape_contract : Prop :=
  forall (P U Vh : Matrix) (s : list scalar),
    numpy_linalg_svd P = Ok (U, s, Vh) ->
    is_matrix (length P) (length P) U.

(** A rule returns a square matrix of the side of the row count of its
    argument. *)
Definition est_shape_contract : Prop :=
  forall (name : string) (est : Matrix -> Matrix) (M : Matrix),
    check_est name = Ok est ->
    is_matrix (length M) (length M) (est M).

(** Modelled from the spec: [covariances] of [utils.covariance] is
    missing; the spec's [estimate_batch] is the batched form of the
    single-matrix rule, one matrix per trial, preserving order. *)
Definition covariances (X : ndarray3) (estimator : string)
  : result (list Matrix) :=
  result_bind (check_est estimator) (fun est =>
  Ok (map est (trials X))).

(** Modelled from the spec: the super-trial that the missing
    [covariances_EP] builds stacks the prototype set above the trial
    along the row axis, prototype rows first, trial rows second. *)
Definition super_trial (P Xi : Matrix) : Matrix := P ++ Xi.

(** Modelled from the spec: whether the missing [covariances_EP] can
    stack the prototype set above the trials of the batch: every row of
    the prototype set has the sample count of the batch. A prototype set
    without rows has no row to compare; the list of its rows does not
    record its sample count. *)
Definition stackable (X : ndarray3) (P : Matrix) : bool :=
  forallb (fun row => Nat.eqb (length row) (n_samples X)) P.

(** Modelled from the spec: [covariances_EP] of [utils.covariance] is
    missing; the spec's [estimate_augmented_batch] stacks the prototype
    set with each trial and estimates one matrix per super-trial with
    the rule the name resolves to. Stacking a trial under a prototype set
    of another sample count is the shape error of the primitive. *)
Definition covariances_EP (X : ndarray3) (P : Matrix) (estimator : string)
  : result (list Matrix) :=
  result_bind (check_est estimator) (fun est =>
  if Nat.eqb (length (trials X)) 0 || stackable X P then
    Ok (map (fun Xi => est (super_trial P Xi)) (trials X))
  else
    Raise (ValueError "all the input array dimensions except for the concatenation axis must match exactly")).

Definition cstack : Type := list (list (list (scalar * scalar))).

(** [S.real] *)
Definition real_part (S : cstack) : list Matrix :=
  map (map (map fst)) S.

(** Modelled from the spec: [Xdawn] of [spatialfilters] is missing; the
    spec's Spatial Filter component learns, in [fit], per-class channel
    projections and class-ordered evoked responses, and its [transform]
    projects a trial batch into the reduced channel space, reading the
    learned artifact only. *)
Record Xdawn : Type := mk_Xdawn {
  nfilter : Z;
  xdawn_classes : option (list label);
  filters_ : option Matrix;
  evokeds_ : option Matrix
}.

(** Modelled from the spec: the constructor of the missing [Xdawn]
    keeps its configuration; nothing is learned yet. *)
Definition Xdawn_init (nf : Z) (classes : option (list label)) : Xdawn :=
  mk_Xdawn nf classes None None.

(** Modelled from the spec: [Xdawn.fit] is missing; it learns the
    filters and the evoked responses from the batch and the labels,
    stores them and returns [self]. *)
Definition Xdawn_fit (X : ndarray3) (y : list label) : method Xdawn Xdawn :=
  (self <- get ;;
   learned <- lift (Xdawn_learn (nfilter self) (xdawn_classes self) X y) ;;
   put (mk_Xdawn (nfilter self) (xdawn_classes self)
                 (Some (fst learned)) (Some (snd learned))) ;;
   get)%method.

(** Modelled from the spec: the projection the missing [Xdawn.transform]
    applies to one trial, through the filters [W], one filter per
    column. *)
Definition project (W Xi : Matrix) : Matrix := numpy_dot (transpose W) Xi.

(** Modelled from the spec: [Xdawn.transform] is missing; it projects
    every trial of the batch into the reduced channel space and writes
    nothing. *)
Definition Xdawn_transform (xd : Xdawn) (X : ndarray3) : result ndarray3 :=
  match filters_ xd with
  | None => Raise (AttributeError "'Xdawn' object has no attribute 'filters_'")
  | Some W =>
      Ok (mk_ndarray3 (n_trials X) (cols W) (n_samples X)
            (map (project W) (trials X)))
  end.

(** Modelled from the spec: reading the attribute [evokeds_] of the
    missing [Xdawn], the class-ordered evoked responses. *)
Definition Xdawn_evokeds (xd : Xdawn) : result Matrix :=
  match evokeds_ xd with
  | None => Raise (AttributeError "'Xdawn' object has no attribute 'evokeds_'")
  | Some E => Ok E
  end.

(** ** [Covariances] *)

Record Covariances : Type := mk_Covariances {
  cov_estimator : string
}.

Definition Covariances_init (estimator : string) : Covariances :=
  mk_Covariances estimator.

(** [fit] returns [self]. *)
Definition Covariances_fit (X : ndarray3) (y : option (list label))
  : method Covariances Covariances :=
  get.

Definition Covariances_transform (X : ndarray3)
  : method Covariances (list Matrix) :=
  (self <- get ;;
   covmats <- lift (covariances X (cov_estimator self)) ;;
   ret covmats)%method.

(** ** [ERPCovariances] *)

(** The attribute [P]: absent before [fit], a Python list while [fit]
    collects the prototypes, an array once they are concatenated. *)
Inductive P_attr : Type :=
| P_unset
| P_list (l : list Matrix)
| P_array (M : Matrix).

Record ERPCovariances : Type := mk_ERPCovariances {
  erp_classes : option (list label);
  erp_estimator : string;
  erp_svd : pyval;
  erp_P : P_attr
}.

Definition ERPCovariances_init (classes : option (list label))
  (estimator : string) (svd : pyval) : result ERPCovariances :=
  let self := mk_ERPCovariances classes estimator svd P_unset in
  if negb (is_None svd) then
    if negb (isinstance svd cls_int) then
      Raise (TypeError "svd must be None or int")
    else Ok self
  else Ok self.

(** The object [self] with its attribute [P] bound to [v]. *)
Definition with_P (self : ERPCovariances) (v : P_attr) : ERPCovariances :=
  mk_ERPCovariances (erp_classes self) (erp_estimator self) (erp_svd self) v.

(** [self.P = v] *)
Definition set_P (v : P_attr) : method ERPCovariances unit :=
  (self <- get ;;
   put (with_P self v))%method.

(** [self.P.append(M)] *)
Definition P_append (M : Matrix) : method ERPCovariances unit :=
  (self <- get ;;
   match erp_P self with
   | P_list l => set_P (P_list (l ++ [M]))
   | P_array _ =>
       raise (AttributeError "'numpy.ndarray' object has no attribute 'append'")
   | P_unset =>
       raise (AttributeError "'ERPCovariances' object has no attribute 'P'")
   end)%method.

(** The arrays [numpy.concatenate] receives from [self.P]; in [fit] the
    attribute is the list the loop has built. *)
Definition P_sequence (v : P_attr) : result (list Matrix) :=
  match v with
  | P_list l => Ok l
  | P_array M => Ok (map (fun row => [row]) M)
  | P_unset =>
      Raise (AttributeError "'ERPCovariances' object has no attribute 'P'")
  end.

(** The body of the loop over the classes. *)
Definition fit_class (X : ndarray3) (y : list label) (c : label)
  : method ERPCovariances unit :=
  (Xc <- lift (bool_index X (eq_mask y c)) ;;
   let P := numpy_mean_axis0 Xc in
   self <- get ;;
   P <- (if negb (is_None (erp_svd self)) then
           usv <- lift (numpy_linalg_svd P) ;;
           let '(U, s, V) := usv in
           k <- lift (py_index (erp_svd self)) ;;
           ret (numpy_dot (transpose (slice_columns k U)) P)
         else ret P) ;;
   P_append P)%method.

(** [fit] returns [self]. *)
Definition ERPCovariances_fit (X : ndarray3) (y : list label)
  : method ERPCovariances ERPCovariances :=
  (self <- get ;;
   let classes :=
     match erp_classes self with
     | Some cl => cl
     | None => numpy_unique y
     end in
   set_P (P_list []) ;;
   for_each classes (fit_class X y) ;;
   self <- get ;;
   arrays <- lift (P_sequence (erp_P self)) ;;
   A <- lift (numpy_concatenate arrays) ;;
   set_P (P_array A) ;;
   get)%method.

Definition ERPCovariances_transform (X : ndarray3)
  : method ERPCovariances (list Matrix) :=
  (self <- get ;;
   match erp_P self with
   | P_array P =>
       covmats <- lift (covariances_EP X P (erp_estimator self)) ;;
       ret covmats
   | P_list _ => raise (AttributeError "'list' object has no attribute 'shape'")
   | P_unset =>
       raise (AttributeError "'ERPCovariances' object has no attribute 'P'")
   end)%method.

(** *** The prototype set, stated apart from the receiver *)

(** The active class set, in order: the configured subset, or else the
    distinct label values. *)
Definition class_order (classes : option (list label)) (y : list label)
  : list label :=
  match classes with
  | Some cl => cl
  | None => numpy_unique y
  end.

(** What one turn of the loop of [fit] appends for class [c]. *)
Definition class_prototype (svd : pyval) (X : ndarray3) (y : list label)
  (c : label) : result Matrix :=
  result_bind (bool_index X (eq_mask y c)) (fun Xc =>
  let P := numpy_mean_axis0 Xc in
  if negb (is_None svd) then
    result_bind (numpy_linalg_svd P) (fun usv =>
    let '(U, s, V) := usv in
    result_bind (py_index svd) (fun k =>
    Ok (numpy_dot (transpose (slice_columns k U)) P)))
  else Ok P).

(** The trials whose label equals [c], in batch order. *)
Definition trials_of_class (X : ndarray3) (y : list label) (c : label)
  : list Matrix :=
  map fst (filter (fun p => Z.eqb (snd p) c) (combine (trials X) y)).

(** Their mean along the trial axis. *)
Definition class_mean (X : ndarray3) (y : list label) (c : label) : Matrix :=
  let sel := trials_of_class X y c in
  numpy_mean_axis0 (mk_ndarray3 (length sel) (n_channels X) (n_samples X) sel).

(** The left singular vectors of [P] kept by the slice [0:k], as rows. *)
Definition leading_left_singular (k : Z) (P : Matrix) : result Matrix :=
  result_map (fun usv => transpose (slice_columns k (fst (fst usv))))
             (numpy_linalg_svd P).

(** The reduction rank an object is configured with, if any. *)
Definition rank_of (svd : pyval) : option Z :=
  match py_index svd with
  | Ok k => Some k
  | Raise _ => None
  end.

(** The prototype of class [c] as the specification words it: the class
    mean, replaced when a rank is configured by its projection onto the
    leading left singular vectors. *)
Definition spec_prototype (rank : option Z) (X : ndarray3) (y : list label)
  (c : label) : result Matrix :=
  let P := class_mean X y c in
  match rank with
  | None => Ok P
  | Some k =>
      result_map (fun Ut => numpy_dot Ut P) (leading_left_singular k P)
  end.

(** Rows of one prototype of a batch with [C] channels. *)
Definition prototype_rows (rank : option Z) (C : nat) : nat :=
  match rank with
  | None => C
  | Some k => py_slice_stop C k
  end.

(** First occurrences of the values of [y], in order of appearance. *)
Fixpoint first_appearance (y : list label) : list label :=
  match y with
  | [] => []
  | c :: y' => c :: filter (fun d => negb (Z.eqb d c)) (first_appearance y')
  end.

(** ** [XdawnCovariances] *)

Record XdawnCovariances : Type := mk_XdawnCovariances {
  Xd : Xdawn;
  applyfilters : bool;
  xdawn_estimator : string
}.

Definition XdawnCovariances_init (nf : Z) (apply : bool)
  (classes : option (list label)) (estimator : string) : XdawnCovariances :=
  mk_XdawnCovariances (Xdawn_init nf classes) apply estimator.

(** A method call on the object held in [self.Xd]. *)
Definition on_Xd {A} (m : method Xdawn A) : method XdawnCovariances A :=
  fun self =>
    let (r, xd) := m (Xd self) in
    (r, mk_XdawnCovariances xd (applyfilters self) (xdawn_estimator self)).

Definition XdawnCovariances_fit (X : ndarray3) (y : list label)
  : method XdawnCovariances XdawnCovariances :=
  (on_Xd (Xdawn_fit X y) ;;
   get)%method.

Definition XdawnCovariances_transform (X : ndarray3)
  : method XdawnCovariances (list Matrix) :=
  (self <- get ;;
   X <- (if applyfilters self then lift (Xdawn_transform (Xd self) X)
         else ret X) ;;
   self <- get ;;
   evokeds <- lift (Xdawn_evokeds (Xd self)) ;;
   covmats <- lift (covariances_EP X evokeds (xdawn_estimator self)) ;;
   ret covmats)%method.

(** What [transform] feeds the estimator for one trial once the object
    is fitted: the trial, through the filters if they are applied. *)
Definition XdawnCovariances_project (self : XdawnCovariances) (Xi : Matrix)
  : Matrix :=
  if applyfilters self then
    match filters_ (Xd self) with
    | Some W => project W Xi
    | None => Xi
    end
  else Xi.

Definition XdawnCovariances_fit_transform (X : ndarray3) (y : list label)
  : method XdawnCovariances (list Matrix) :=
  (XdawnCovariances_fit X y ;;
   XdawnCovariances_transform X)%method.

(** ** [CospCovariances] *)

Record CospCovariances : Type := mk_CospCovariances {
  _window : Z;
  _overlap : scalar;
  _fmin : option scalar;
  _fmax : option scalar;
  _fs : option scalar;
  _phase_corr : bool
}.

(** [None] when [_nextpow2] runs out of fuel. *)
Definition CospCovariances_init (fuel : nat) (window : Z) (overlap : scalar)
  (fmin fmax fs : option scalar) (phase_correction : bool)
  : option CospCovariances :=
  match _nextpow2 fuel window with
  | Some w => Some (mk_CospCovariances w overlap fmin fmax fs phase_correction)
  | None => None
  end.

(** One call of the external [cospectrum], with its arguments. *)
Record cospectrum_call : Type := mk_cospectrum_call {
  call_trial : Matrix;
  call_window : Z;
  call_overlap : scalar;
  call_fmin : option scalar;
  call_fmax : option scalar;
  call_fs : option scalar
}.

(** The methods of [CospCovariances] run over the receiver and the trace
    of the calls made to [cospectrum] so far. *)
Record Cosp_state : Type := mk_Cosp_state {
  receiver : CospCovariances;
  calls : list cospectrum_call
}.

Definition call_cospectrum (Xi : Matrix) (window : Z) (overlap : scalar)
  (fmin fmax fs : option scalar) : method Cosp_state cstack :=
  fun st =>
    (cospectrum Xi window overlap fmin fmax fs,
     mk_Cosp_state (receiver st)
       (calls st ++ [mk_cospectrum_call Xi window overlap fmin fmax fs])).

(** [X[i]] *)
Definition getitem (X : ndarray3) (i : nat) : result Matrix :=
  match nth_error (trials X) i with
  | Some Xi => Ok Xi
  | None => Raise (IndexError "index is out of bounds for axis 0")
  end.

Definition CospCovariances_fit (X : ndarray3) (y : option (list label))
  : method Cosp_state CospCovariances :=
  (st <- get ;;
   ret (receiver st))%method.

(** The loop [for i in range(Nt)] with its local list [out]; it ends in
    [numpy.array(out)]. *)
Fixpoint transform_loop (X : ndarray3) (range : list nat)
  (out : list (list Matrix)) : method Cosp_state (list (list Matrix)) :=
  match range with
  | [] => ret out
  | i :: range' =>
      (Xi <- lift (getitem X i) ;;
       st <- get ;;
       let self := receiver st in
       S <- call_cospectrum Xi (_window self) (_overlap self)
                            (_fmin self) (_fmax self) (_fs self) ;;
       transform_loop X range' (out ++ [real_part S]))%method
  end.

Definition CospCovariances_transform (X : ndarray3)
  : method Cosp_state (list (list Matrix)) :=
  let Nt := n_trials X in
  transform_loop X (seq 0 Nt) [].

Definition CospCovariances_fit_transform (X : ndarray3)
  (y : option (list label)) : method Cosp_state (list (list Matrix)) :=
  CospCovariances_transform X.

(** What [transform] computes for one trial, and the call it makes. *)
Definition CospCovariances_trial (self : CospCovariances) (Xi : Matrix)
  : result (list Matrix) :=
  result_map real_part
    (cospectrum Xi (_window self) (_overlap self) (_fmin self) (_fmax self)
                (_fs self)).

Definition call_of (self : CospCovariances) (Xi : Matrix) : cospectrum_call :=
  mk_cospectrum_call Xi (_window self) (_overlap self) (_fmin self)
                     (_fmax self) (_fs self).

(** The same method called twice in a row on the same receiver. *)
Definition twice {S A : Type} (m : method S A) : method S (A * A) :=
  (a <- m ;;
   b <- m ;;
   ret (a, b))%method.

End Estimation.

(** ** An exact instance

    Rational numbers for the scalars and small stand-ins for the external
    primitives, so that the model runs on concrete batches. *)

Module Demo.

Import QArith_base.

Definition Qadd (x y : Q) : Q := Qreduction.Qred (Qplus x y).
Definition Qmul (x y : Q) : Q := Qreduction.Qred (Qmult x y).
Definition Qdivn (x : Q) (n : nat) : Q :=
  Qreduction.Qred (Qdiv x (inject_Z (Z.of_nat n))).

Definition rationals : Scalars :=
  {| scalar := Q; szero := Qmake 0 1; sadd := Qadd; smul := Qmul;
     sdivn := Qdivn |}.

Definition QMatrix : Type := @Matrix rationals.

Definition identity (n : nat) : QMatrix :=
  map (fun i => map (fun j => if Nat.eqb i j then Qmake 1 1 else Qmake 0 1)
                    (seq 0 n))
      (seq 0 n).

(** [P] is zero off its diagonal and its diagonal is non-negative and
    non-increasing. *)
Definition sorted_diagonal (P : QMatrix) : bool :=
  forallb (fun i =>
    forallb (fun j =>
      if Nat.eqb i j then
        Qle_bool (Qmake 0 1) (@entry rationals P i i) &&
        (Nat.eqb i 0 ||
         Qle_bool (@entry rationals P i i)
                  (@entry rationals P (i - 1) (i - 1)))
      else Qeq_bool (@entry rationals P i j) (Qmake 0 1))
      (seq 0 (@cols rationals P)))
    (seq 0 (length P)).

(** The decomposition of such an array is immediate: [U] and [Vh] are
    identities and the singular values are the diagonal. Other arrays are
    outside this instance. *)
Definition svd_sorted_diagonal (P : QMatrix)
  : result (QMatrix * list Q * QMatrix) :=
  if sorted_diagonal P then
    Ok (identity (length P),
        map (fun i => @entry rationals P i i)
            (seq 0 (Nat.min (length P) (@cols rationals P))),
        identity (@cols rationals P))
  else Raise (LinAlgError "SVD did not converge").

(** The sample covariance matrix [X X^T / n_samples]. *)
Definition scm (M : QMatrix) : QMatrix :=
  map (fun a =>
         map (fun b => Qdivn (@vdot rationals a b) (@cols rationals M)) M)
      M.

Definition registry (name : string) : result (QMatrix -> QMatrix) :=
  if String.eqb name "scm" then Ok scm
  else Raise (ValueError "unknown covariance estimator").

(** A single frequency bin whose real part is [X X^T] and whose
    imaginary part is 1 throughout. *)
Definition one_bin (M : QMatrix) (window : Z) (overlap : Q)
  (fmin fmax fs : option Q) : result (list (list (list (Q * Q)))) :=
  Ok [map (fun a => map (fun b => (@vdot rationals a b, Qmake 1 1)) M) M].

(** Filters that keep every channel, evoked responses that are the
    grand average. *)
Definition learn_identity (nf : Z) (classes : option (list label))
  (X : @ndarray3 rationals) (y : list label)
  : result (QMatrix * QMatrix) :=
  Ok (identity (n_channels X), @numpy_mean_axis0 rationals X).

Definition externals : @Externals rationals :=
  {| numpy_linalg_svd := svd_sorted_diagonal;
     check_est := registry;
     cospectrum := one_bin;
     Xdawn_learn := learn_identity |}.

Definition q (z : Z) : Q := Qmake z 1.

(** Two trials of two channels and two samples, one per class. *)
Definition X2_trials : list QMatrix :=
  [ [[q 4; q 0]; [q 0; q 2]];
    [[q 2; q 0]; [q 0; q 1]] ].

Definition X2 : @ndarray3 rationals := mk_ndarray3 2 2 2 X2_trials.

Definition y2 : list label := [5%Z; 3%Z].

(** The two class means of [X2], in the order of [numpy.unique]: label 3
    first, label 5 second. *)
Definition mean3 : QMatrix := [[q 2; q 0]; [q 0; q 1]].
Definition mean5 : QMatrix := [[q 4; q 0]; [q 0; q 2]].

(** An [ERPCovariances] object after [fit]. *)
Definition fitted (svd : pyval) (P : QMatrix) : @ERPCovariances rationals :=
  mk_ERPCovariances None "scm" svd (P_array P).

Definition cosp : @CospCovariances rationals :=
  @mk_CospCovariances rationals 128%Z (q 0) None None None false.

(** An [XdawnCovariances] object after [fit] on [X2]. *)
Definition xdawn : @XdawnCovariances rationals :=
  mk_XdawnCovariances
    (mk_Xdawn 4%Z None (Some (identity 2))
              (Some [[q 3; q 0]; [q 0; Qmake 3 2]]))
    true "scm".

(** The value a call returned, [[]] if it raised. *)
Definition returned {A : Type} (r : result (list A)) : list A :=
  match r with
  | Ok l => l
  | Raise _ => []
  end.

(** A [cospectrum] that refuses a trial whose first channel is zero
    throughout. *)
Definition first_channel_flat (M : QMatrix) : bool :=
  match M with
  | [] => false
  | row :: _ => forallb (fun x => Qeq_bool x (Qmake 0 1)) row
  end.

Definition one_bin_checked (M : QMatrix) (window : Z) (overlap : Q)
  (fmin fmax fs : option Q) : result (list (list (list (Q * Q)))) :=
  if first_channel_flat M then Raise (ValueError "flat channel")
  else one_bin M window overlap fmin fmax fs.

Definition externals_checked : @Externals rationals :=
  {| numpy_linalg_svd := svd_sorted_diagonal;
     check_est := registry;
     cospectrum := one_bin_checked;
     Xdawn_learn := learn_identity |}.

(** Three trials, the second with a flat first channel. *)
Definition flat : QMatrix := [[q 0; q 0]; [q 0; q 1]].

Definition X3 : @ndarray3 rationals :=
  mk_ndarray3 3 2 2 ([mean5; flat; mean3] : list QMatrix).

(** Two trials; the one of class 5 has an increasing diagonal, which
    [svd_sorted_diagonal] refuses. *)
Definition rising : QMatrix := [[q 1; q 0]; [q 0; q 2]].

Definition X4 : @ndarray3 rationals :=
  mk_ndarray3 2 2 2 ([rising; mean3] : list QMatrix).

(** [xdawn] with [applyfilters=False]. *)
Definition xdawn_unfiltered : @XdawnCovariances rationals :=
  mk_XdawnCovariances (Xd xdawn) false "scm".

(** Labels for [X3]: one trial of class 5, two of class 3. *)
Definition y3 : list label := [5%Z; 3%Z; 3%Z].

(** *** Scalars with nan

    [None] stands for nan (and for the infinities, which the runs below
    do not tell apart from it): a division by a zero count gives it and
    every operation propagates it. *)

Definition F : Type := option Q.

Definition Fadd (x y : F) : F :=
  match x, y with
  | Some a, Some b => Some (Qadd a b)
  | _, _ => None
  end.

Definition Fmul (x y : F) : F :=
  match x, y with
  | Some a, Some b => Some (Qmul a b)
  | _, _ => None
  end.

Definition Fdivn (x : F) (n : nat) : F :=
  match x, n with
  | Some a, S _ => Some (Qdivn a n)
  | _, _ => None
  end.

Definition floats : Scalars :=
  {| scalar := F; szero := Some (Qmake 0 1); sadd := Fadd; smul := Fmul;
     sdivn := Fdivn |}.

Definition FMatrix : Type := @Matrix floats.

Definition f (z : Z) : F := Some (Qmake z 1).

Definition all_finite (P : FMatrix) : bool :=
  forallb (forallb (fun x : F => match x with Some _ => true | None => false end))
          P.

(** The rational entries of an array without nan. *)
Definition finite_part (P : FMatrix) : QMatrix :=
  map (map (fun x : F => match x with Some a => a | None => Qmake 0 1 end)) P.

Definition Fidentity (n : nat) : FMatrix :=
  map (map (fun a : Q => Some a)) (identity n).

(** The decomposition does not converge on an array that holds a nan;
    on the others this instance is [svd_sorted_diagonal]. *)
Definition svd_float (P : FMatrix) : result (FMatrix * list F * FMatrix) :=
  if all_finite P then
    match svd_sorted_diagonal (finite_part P) with
    | Ok (U, s, V) =>
        Ok (map (map (fun a : Q => Some a)) U, map (fun a : Q => Some a) s,
            map (map (fun a : Q => Some a)) V)
    | Raise e => Raise e
    end
  else Raise (LinAlgError "SVD did not converge").

Definition Fscm (M : FMatrix) : FMatrix :=
  map (fun a => map (fun b => Fdivn (@vdot floats a b) (@cols floats M)) M) M.

Definition Fregistry (name : string) : result (FMatrix -> FMatrix) :=
  if String.eqb name "scm" then Ok Fscm
  else Raise (ValueError "unknown covariance estimator").

Definition Fone_bin (M : FMatrix) (window : Z) (overlap : F)
  (fmin fmax fs : option F) : result (list (list (list (F * F)))) :=
  Ok [map (fun a => map (fun b => (@vdot floats a b, f 1)) M) M].

Definition Flearn (nf : Z) (classes : option (list label))
  (X : @ndarray3 floats) (y : list label) : result (FMatrix * FMatrix) :=
  Ok (Fidentity (n_channels X), @numpy_mean_axis0 floats X).

Definition float_externals : @Externals floats :=
  {| numpy_linalg_svd := svd_float;
     check_est := Fregistry;
     cospectrum := Fone_bin;
     Xdawn_learn := Flearn |}.

(** [X2] over the scalars with nan. *)
Definition FX2 : @ndarray3 floats :=
  mk_ndarray3 2 2 2
    ([ [[f 4; f 0]; [f 0; f 2]]; [[f 2; f 0]; [f 0; f 1]] ] : list FMatrix).

End Demo.

(** * Properties *)

Lemma nextpow2_while_spec (i : Z) (fuel : nat) :
  forall j : Z,
    0 <= j ->
    (j = 0 \/ 2 ^ (j - 1) < i) ->
    (Z.to_nat (i - 2 ^ j) < fuel)%nat ->
    exists k : Z,
      j <= k /\ nextpow2_while fuel (2 ^ j) i = Some (2 ^ k) /\
      i <= 2 ^ k /\ (k = 0 \/ 2 ^ (k - 1) < i).
Proof.
  induction fuel as [|fuel IH]; intros j Hj Hprev Hfuel; [lia|].
  cbn [nextpow2_while].
  assert (Hpos : 0 < 2 ^ j) by (apply Z.pow_pos_nonneg; lia).
  destruct (Z.ltb_spec (2 ^ j) i) as [Hlt|Hge].
  - assert (Hnext : 2 ^ j * 2 = 2 ^ (j + 1))
      by (rewrite Z.pow_add_r by lia; rewrite Z.pow_1_r; reflexivity).
    rewrite Hnext.
    destruct (IH (j + 1)) as (k & Hk & Hrun & Hle & Hmin).
    + lia.
    + right. replace (j + 1 - 1) with j by lia. exact Hlt.
    + rewrite <- Hnext. lia.
    + exists k. repeat split; try assumption. lia.
  - exists j. repeat split; try assumption. lia.
Qed.

Lemma nextpow2_minimal (i k : Z) :
  0 <= k -> (k = 0 \/ 2 ^ (k - 1) < i) ->
  forall j : Z, 0 <= j -> i <= 2 ^ j -> 2 ^ k <= 2 ^ j.
Proof.
  intros Hk Hmin j Hj Hij.
  apply Z.pow_le_mono_r; [lia|].
  destruct Hmin as [->|Hlt]; [lia|].
  assert (H : 2 ^ (k - 1) < 2 ^ j) by lia.
  apply Z.pow_lt_mono_r_iff in H; lia.
Qed.

Lemma _nextpow2_spec (i : Z) (fuel : nat) :
  (nextpow2_fuel i <= fuel)%nat ->
  exists k : Z,
    0 <= k /\ _nextpow2 fuel i = Some (2 ^ k) /\ i <= 2 ^ k /\
    (forall j : Z, 0 <= j -> i <= 2 ^ j -> 2 ^ k <= 2 ^ j).
Proof.
  intros Hfuel. unfold _nextpow2, nextpow2_fuel in *.
  destruct (@nextpow2_while_spec i fuel 0) as (k & Hk & Hrun & Hle & Hmin).
  - lia.
  - left; reflexivity.
  - change (2 ^ 0) with 1. lia.
  - exists k. repeat split; try assumption.
    apply nextpow2_minimal; assumption.
Qed.


Section Properties.

Context {SC : Scalars} {EX : Externals}.

(** Unfolds the plumbing of the method monad. *)
Ltac run_method := unfold bind, get, put, lift, ret, raise.

(** ** Construction *)

Lemma isinstance_int (v : pyval) :
  isinstance v cls_int = true <->
  (exists z, v = PyInt z) \/ (exists b, v = PyBool b).
Proof.
  split.
  - destruct v; cbn; intros H; try discriminate; eauto.
  - intros [[z ->]|[b ->]]; reflexivity.
Qed.

(** C1. [ERPCovariances(classes, estimator, svd)] raises the [TypeError]
    of the constructor exactly when [svd] is neither [None] nor an
    instance of [int]; for [None] and for every instance of [int]
    (negative ones and booleans included) it returns the object with the
    three arguments stored and no prototype set; and in an object it
    returned, [svd] is [None] or converts to a slice bound, so that the
    check is never left to [fit] or [transform]. *)
Theorem ERPCovariances_init_svd_check
  (classes : option (list label)) (estimator : string) (svd : pyval) :
  (svd <> PyNone -> isinstance svd cls_int = false ->
   ERPCovariances_init classes estimator svd =
   Raise (TypeError "svd must be None or int")) /\
  (svd = PyNone \/ isinstance svd cls_int = true ->
   ERPCovariances_init classes estimator svd =
   Ok (mk_ERPCovariances classes estimator svd P_unset)) /\
  (forall self : ERPCovariances,
     ERPCovariances_init classes estimator svd = Ok self ->
     erp_svd self = PyNone \/ exists k : Z, py_index (erp_svd self) = Ok k).
Proof.
  unfold ERPCovariances_init. repeat split.
  - intros Hnone Hint. destruct svd; try contradiction; cbn in *;
      try discriminate; reflexivity.
  - intros [->|Hint]; [reflexivity|].
    rewrite Hint. destruct svd; reflexivity.
  - intros self. destruct svd; cbn; intros H; inversion H; subst; cbn; eauto;
      discriminate.
Qed.

Lemma nextpow2_while_more_fuel (i : Z) (fuel extra : nat) :
  forall n r : Z,
    nextpow2_while fuel n i = Some r ->
    nextpow2_while (fuel + extra) n i = Some r.
Proof.
  induction fuel as [|fuel IH]; intros n r H; [discriminate|].
  cbn in *. destruct (n <? i); [apply IH; exact H | exact H].
Qed.

(** C2. Given enough fuel for the loop of [_nextpow2], the constructor of
    [CospCovariances] returns, and the object it returns stores as
    [_window] the least power of two that is at least the requested
    window; the other arguments are stored as they are. A request of 100
    stores 128, a request of 128 stores 128. *)
Theorem CospCovariances_init_window
  (window : Z) (overlap : scalar) (fmin fmax fs : option scalar)
  (phase_correction : bool) (fuel : nat) :
  (nextpow2_fuel window <= fuel)%nat ->
  exists k : Z,
    0 <= k /\
    CospCovariances_init fuel window overlap fmin fmax fs phase_correction =
    Some (mk_CospCovariances (2 ^ k) overlap fmin fmax fs phase_correction) /\
    window <= 2 ^ k /\
    (forall j : Z, 0 <= j -> window <= 2 ^ j -> 2 ^ k <= 2 ^ j) /\
    (window = 100 -> 2 ^ k = 128) /\
    (window = 128 -> 2 ^ k = 128).
Proof.
  intros Hfuel.
  destruct (_nextpow2_spec Hfuel) as (k & Hk & Hrun & Hle & Hmin).
  exists k. unfold CospCovariances_init. rewrite Hrun.
  repeat split; try assumption.
  - intros ->.
    replace fuel with (nextpow2_fuel 100 + (fuel - nextpow2_fuel 100))%nat
      in Hrun by lia.
    unfold _nextpow2 in Hrun.
    rewrite (@nextpow2_while_more_fuel 100 _ _ 1 128) in Hrun
      by (vm_compute; reflexivity).
    congruence.
  - intros ->.
    replace fuel with (nextpow2_fuel 128 + (fuel - nextpow2_fuel 128))%nat
      in Hrun by lia.
    unfold _nextpow2 in Hrun.
    rewrite (@nextpow2_while_more_fuel 128 _ _ 1 128) in Hrun
      by (vm_compute; reflexivity).
    congruence.
Qed.

(** ** The loop of [ERPCovariances.fit] *)

Lemma select_mask_filter (l : list Matrix) (y : list label) (c : label) :
  select_mask l (eq_mask y c) =
  map fst (filter (fun p => Z.eqb (snd p) c) (combine l y)).
Proof.
  unfold eq_mask. revert y.
  induction l as [|x l IH]; intros [|d y]; cbn; try reflexivity.
  destruct (d =? c); cbn; rewrite IH; reflexivity.
Qed.

Lemma bool_index_aligned (X : ndarray3) (y : list label) (c : label) :
  length y = n_trials X ->
  bool_index X (eq_mask y c) =
  Ok (mk_ndarray3 (length (trials_of_class X y c)) (n_channels X)
                  (n_samples X) (trials_of_class X y c)).
Proof.
  intros Hlen. unfold bool_index, trials_of_class.
  rewrite select_mask_filter.
  unfold eq_mask. rewrite length_map, Hlen, Nat.eqb_refl. reflexivity.
Qed.

Lemma init_ok_inv (classes : option (list label)) (estimator : string)
  (svd : pyval) (self : ERPCovariances) :
  ERPCovariances_init classes estimator svd = Ok self ->
  self = mk_ERPCovariances classes estimator svd P_unset /\
  (svd = PyNone \/ isinstance svd cls_int = true).
Proof.
  unfold ERPCovariances_init.
  destruct svd; cbn; intros H; inversion H; subst; auto; discriminate.
Qed.

(** On a batch with aligned labels the loop body computes the prototype
    in the words of the specification. *)
Lemma class_prototype_spec (svd : pyval) (X : ndarray3) (y : list label)
  (c : label) :
  svd = PyNone \/ isinstance svd cls_int = true ->
  length y = n_trials X ->
  class_prototype svd X y c = spec_prototype (rank_of svd) X y c.
Proof.
  intros Hsvd Hlen. unfold class_prototype, spec_prototype.
  rewrite (bool_index_aligned X y c Hlen). cbn [result_bind].
  fold (class_mean X y c).
  destruct Hsvd as [->|Hint]; [reflexivity|].
  apply isinstance_int in Hint. unfold leading_left_singular.
  destruct Hint as [[z ->]|[b ->]];
    cbn [is_None negb rank_of py_index];
    destruct (numpy_linalg_svd (class_mean X y c)) as [[[U s] V]|e];
    reflexivity.
Qed.

Lemma fit_class_run (X : ndarray3) (y : list label) (c : label)
  (s : ERPCovariances) (acc : list Matrix) :
  erp_P s = P_list acc ->
  fit_class X y c s =
  match class_prototype (erp_svd s) X y c with
  | Ok p => (Ok tt, with_P s (P_list (acc ++ [p])))
  | Raise e => (Raise e, s)
  end.
Proof.
  intros HP. unfold fit_class, class_prototype, bind, lift, get.
  destruct (bool_index X (eq_mask y c)) as [Xc|e]; cbn; [|reflexivity].
  destruct (negb (is_None (erp_svd s))).
  - destruct (numpy_linalg_svd (numpy_mean_axis0 Xc)) as [[[U sv] V]|e]; cbn;
      [|reflexivity].
    destruct (py_index (erp_svd s)) as [k|e]; cbn; [|reflexivity].
    unfold P_append, bind, get. rewrite HP. reflexivity.
  - cbn. unfold P_append, bind, get. rewrite HP. reflexivity.
Qed.

Lemma fit_loop (X : ndarray3) (y : list label) (order : list label) :
  forall (s : ERPCovariances) (acc : list Matrix),
    erp_P s = P_list acc ->
    match mapM (class_prototype (erp_svd s) X y) order with
    | Ok ps =>
        for_each order (fit_class X y) s =
        (Ok tt, with_P s (P_list (acc ++ ps)))
    | Raise e => fst (for_each order (fit_class X y) s) = Raise e
    end.
Proof.
  induction order as [|c order IH]; intros s acc HP.
  - cbn. unfold ret, with_P. rewrite app_nil_r, <- HP.
    destruct s; reflexivity.
  - cbn [mapM for_each]. unfold bind.
    rewrite (fit_class_run X y c s HP).
    destruct (class_prototype (erp_svd s) X y c) as [p|e]; cbn [result_bind];
      [|reflexivity].
    specialize (IH (with_P s (P_list (acc ++ [p]))) (acc ++ [p]) eq_refl).
    cbn [with_P erp_svd] in IH.
    destruct (mapM (class_prototype (erp_svd s) X y) order) as [ps|e];
      cbn [result_bind].
    + rewrite IH. unfold with_P; cbn. rewrite <- app_assoc. reflexivity.
    + exact IH.
Qed.

(** [fit] succeeds exactly on a non-empty sequence of prototypes, stores
    their concatenation and nothing else, and returns the receiver. *)
Lemma fit_ok (X : ndarray3) (y : list label) (self : ERPCovariances)
  (protos : list Matrix) :
  mapM (class_prototype (erp_svd self) X y)
       (class_order (erp_classes self) y) = Ok protos ->
  protos <> [] ->
  ERPCovariances_fit X y self =
  (Ok (with_P self (P_array (concat protos))),
   with_P self (P_array (concat protos))).
Proof.
  intros Hmap Hne. unfold ERPCovariances_fit.
  unfold bind at 1. unfold get at 1.
  fold (class_order (erp_classes self) y).
  unfold bind at 1. unfold set_P at 1, bind at 1, get at 1, put.
  unfold bind at 1.
  pose proof (@fit_loop X y (class_order (erp_classes self) y)
                (with_P self (P_list [])) [] eq_refl) as Hloop.
  cbn [with_P erp_svd] in Hloop. rewrite Hmap in Hloop. rewrite Hloop.
  cbn. destruct protos as [|p protos]; [contradiction|]. reflexivity.
Qed.

Lemma fit_inv (X : ndarray3) (y : list label) (self fitted : ERPCovariances) :
  fst (ERPCovariances_fit X y self) = Ok fitted ->
  exists protos : list Matrix,
    mapM (class_prototype (erp_svd self) X y)
         (class_order (erp_classes self) y) = Ok protos /\
    protos <> [] /\
    fitted = with_P self (P_array (concat protos)).
Proof.
  unfold ERPCovariances_fit.
  unfold bind at 1. unfold get at 1.
  fold (class_order (erp_classes self) y).
  unfold bind at 1. unfold set_P at 1, bind at 1, get at 1, put.
  unfold bind at 1.
  pose proof (@fit_loop X y (class_order (erp_classes self) y)
                (with_P self (P_list [])) [] eq_refl) as Hloop.
  cbn [with_P erp_svd] in Hloop.
  destruct (mapM (class_prototype (erp_svd self) X y)
                 (class_order (erp_classes self) y)) as [protos|e].
  - rewrite Hloop. cbn. destruct protos as [|p protos]; cbn.
    + discriminate.
    + intros H. inversion H. exists (p :: protos).
      repeat split. discriminate.
  - destruct (for_each (class_order (erp_classes self) y) (fit_class X y)
                (with_P self (P_list []))) as [[u|e'] s'];
      cbn in Hloop; [discriminate|].
    cbn. discriminate.
Qed.

Lemma fit_raise_early (X : ndarray3) (y : list label)
  (self : ERPCovariances) (e : exn) :
  mapM (class_prototype (erp_svd self) X y)
       (class_order (erp_classes self) y) = Raise e ->
  exists s : ERPCovariances, ERPCovariances_fit X y self = (Raise e, s).
Proof.
  intros Hmap. unfold ERPCovariances_fit.
  unfold bind at 1. unfold get at 1.
  fold (class_order (erp_classes self) y).
  unfold bind at 1. unfold set_P at 1, bind at 1, get at 1, put.
  unfold bind at 1.
  pose proof (@fit_loop X y (class_order (erp_classes self) y)
                (with_P self (P_list [])) [] eq_refl) as Hloop.
  cbn [with_P erp_svd] in Hloop. rewrite Hmap in Hloop.
  destruct (for_each (class_order (erp_classes self) y) (fit_class X y)
              (with_P self (P_list []))) as [[u|e'] s'];
    cbn in Hloop; [discriminate|].
  inversion Hloop; subst. eexists. reflexivity.
Qed.

(** ** Shapes *)

Lemma numpy_mean_axis0_shape (A : ndarray3) :
  is_matrix (n_channels A) (n_samples A) (numpy_mean_axis0 A).
Proof.
  unfold is_matrix, numpy_mean_axis0. split.
  - rewrite length_map, length_seq. reflexivity.
  - apply Forall_map, Forall_forall. intros r _.
    rewrite length_map, length_seq. reflexivity.
Qed.

Lemma py_slice_stop_le (n : nat) (k : Z) : (py_slice_stop n k <= n)%nat.
Proof. unfold py_slice_stop. destruct (Z.ltb_spec k 0); lia. Qed.

Lemma py_slice_stop_nonneg (n : nat) (k : Z) :
  0 <= k -> py_slice_stop n k = Nat.min (Z.to_nat k) n.
Proof.
  intros Hk. unfold py_slice_stop.
  destruct (Z.ltb_spec k 0); lia.
Qed.

Lemma py_slice_stop_within (n : nat) (k : Z) :
  0 <= k <= Z.of_nat n -> py_slice_stop n k = Z.to_nat k.
Proof. intros Hk. rewrite py_slice_stop_nonneg; lia. Qed.

Lemma is_matrix_cols (r c : nat) (M : Matrix) :
  is_matrix r c M -> M <> [] -> cols M = c.
Proof.
  intros [_ Hrows] Hne. destruct M as [|row M]; [contradiction|].
  inversion Hrows; subst. reflexivity.
Qed.

Lemma cols_slice_columns (k : Z) (U : Matrix) :
  cols (slice_columns k U) = py_slice_stop (cols U) k.
Proof.
  unfold slice_columns. destruct U as [|row U]; cbn [map cols].
  - pose proof (py_slice_stop_le 0 k). lia.
  - rewrite length_firstn. pose proof (py_slice_stop_le (length row) k). lia.
Qed.

Lemma length_transpose (M : Matrix) : length (transpose M) = cols M.
Proof. unfold transpose. rewrite length_map, length_seq. reflexivity. Qed.

Lemma numpy_dot_shape (A B : Matrix) :
  is_matrix (length A) (cols B) (numpy_dot A B).
Proof.
  unfold is_matrix, numpy_dot. split.
  - apply length_map.
  - apply Forall_map, Forall_forall. intros a _.
    rewrite length_map, length_seq. reflexivity.
Qed.

(** The rows kept by the reduction: the slice [0:k] of the columns of a
    square [U], whatever the sign or the size of [k]. *)
Lemma reduction_shape (C T : nat) (k : Z) (U P : Matrix) :
  is_matrix C C U -> is_matrix C T P ->
  is_matrix (py_slice_stop C k) T
            (numpy_dot (transpose (slice_columns k U)) P).
Proof.
  intros HU HP.
  assert (HcolsU : cols U = C).
  { destruct U as [|row U].
    - destruct HU as [HU _]. exact HU.
    - apply (is_matrix_cols HU). discriminate. }
  destruct (numpy_dot_shape (transpose (slice_columns k U)) P) as [Hlen Hrows].
  rewrite length_transpose, cols_slice_columns, HcolsU in Hlen.
  split; [exact Hlen|].
  destruct P as [|row P].
  - destruct HP as [HP _]. cbn in HP. subst C.
    assert (Hz : py_slice_stop 0 k = 0%nat)
      by (pose proof (py_slice_stop_le 0 k); lia).
    rewrite Hz in Hlen. apply length_zero_iff_nil in Hlen.
    rewrite Hlen. constructor.
  - rewrite (is_matrix_cols HP) in Hrows by discriminate. exact Hrows.
Qed.

Lemma class_prototype_shape (svd : pyval) (X : ndarray3) (y : list label)
  (c : label) (p : Matrix) :
  svd_shape_contract ->
  class_prototype svd X y c = Ok p ->
  is_matrix (prototype_rows (rank_of svd) (n_channels X)) (n_samples X) p.
Proof.
  intros Hsvd. unfold class_prototype, bool_index.
  destruct (Nat.eqb (length (eq_mask y c)) (n_trials X)); [|discriminate].
  cbn [result_bind].
  set (Xc := mk_ndarray3 _ _ _ _).
  pose proof (numpy_mean_axis0_shape Xc) as Hmean.
  cbn [n_channels n_samples Xc] in Hmean.
  destruct (is_None svd) eqn:Hnone; cbn [negb].
  - destruct svd; try discriminate. intros H; inversion H; subst.
    exact Hmean.
  - destruct (numpy_linalg_svd (numpy_mean_axis0 Xc)) as [[[U s] V]|e] eqn:Hrun;
      cbn [result_bind]; [|discriminate].
    unfold rank_of.
    destruct (py_index svd) as [k|e]; cbn [result_bind]; [|discriminate].
    intros H; inversion H; subst.
    assert (Hrank : prototype_rows (Some k) (n_channels X) =
                    py_slice_stop (n_channels X) k) by reflexivity.
    rewrite Hrank.
    apply reduction_shape; [|exact Hmean].
    pose proof (Hsvd _ _ _ _ Hrun) as HU.
    destruct Hmean as [Hlen _]. rewrite Hlen in HU. exact HU.
Qed.

Lemma mapM_Forall {A B : Type} (f : A -> result B) (Q : B -> Prop)
  (l : list A) :
  forall bs : list B,
    mapM f l = Ok bs ->
    (forall a b, f a = Ok b -> Q b) ->
    Forall Q bs /\ length bs = length l.
Proof.
  induction l as [|a l IH]; intros bs Hmap HQ; cbn in Hmap.
  - inversion Hmap. split; [constructor | reflexivity].
  - destruct (f a) as [b|e] eqn:Hfa; cbn in Hmap; [|discriminate].
    destruct (mapM f l) as [bs'|e]; cbn in Hmap; [|discriminate].
    inversion Hmap; subst.
    destruct (IH bs' eq_refl HQ) as [Hall Hlen].
    split; [constructor; eauto | cbn; congruence].
Qed.

Lemma mapM_ext {A B : Type} (f g : A -> result B) (l : list A) :
  (forall a, f a = g a) -> mapM f l = mapM g l.
Proof.
  intros Hfg. induction l as [|a l IH]; cbn; [reflexivity|].
  rewrite Hfg, IH. reflexivity.
Qed.

Lemma concat_shape (r t : nat) (ps : list Matrix) :
  Forall (is_matrix r t) ps ->
  is_matrix (r * length ps) t (concat ps).
Proof.
  induction 1 as [|p ps [Hlen Hrows] _ [IHlen IHrows]];
    cbn [concat length].
  - split; [cbn [length]; lia | constructor].
  - split.
    + rewrite length_app, Hlen, IHlen. lia.
    + apply Forall_app. split; assumption.
Qed.

(** ** [numpy.unique] *)

Lemma insert_unique_In (x c : Z) (l : list Z) :
  In c (insert_unique x l) <-> c = x \/ In c l.
Proof.
  induction l as [|h t IH]; cbn.
  - intuition.
  - destruct (Z.ltb_spec x h) as [Hlt|Hge]; cbn.
    + intuition.
    + destruct (Z.eqb_spec x h) as [->|Hne]; cbn; [intuition|].
      rewrite IH. intuition.
Qed.

Lemma numpy_unique_In (y : list Z) (c : Z) :
  In c (numpy_unique y) <-> In c y.
Proof.
  induction y as [|d y IH]; cbn; [reflexivity|].
  rewrite insert_unique_In, IH. intuition.
Qed.

Lemma insert_unique_sorted (x : Z) (l : list Z) :
  StronglySorted Z.lt l -> StronglySorted Z.lt (insert_unique x l).
Proof.
  induction 1 as [|h t Hsorted IH Hall]; cbn.
  - repeat constructor.
  - destruct (Z.ltb_spec x h) as [Hlt|Hge].
    + constructor; [constructor; assumption|].
      constructor; [exact Hlt|].
      eapply Forall_impl; [|exact Hall]. cbn. intros; lia.
    + destruct (Z.eqb_spec x h) as [->|Hne]; [constructor; assumption|].
      constructor; [exact IH|].
      apply Forall_forall. intros c Hc.
      apply insert_unique_In in Hc. destruct Hc as [->|Hc]; [lia|].
      rewrite Forall_forall in Hall. auto.
Qed.

Lemma numpy_unique_sorted (y : list Z) :
  StronglySorted Z.lt (numpy_unique y).
Proof.
  induction y as [|d y IH]; cbn; [constructor|].
  apply insert_unique_sorted, IH.
Qed.

Lemma numpy_unique_nonempty (y : list Z) :
  y <> [] -> numpy_unique y <> [].
Proof.
  destruct y as [|d y]; [contradiction|]. intros _ Hnil.
  assert (Hin : In d (numpy_unique (d :: y)))
    by (apply numpy_unique_In; left; reflexivity).
  rewrite Hnil in Hin. exact Hin.
Qed.

(** ** [ERPCovariances] *)

Lemma prototype_rows_cases (svd : pyval) (C : nat) :
  (svd = PyNone -> prototype_rows (rank_of svd) C = C) /\
  (forall r : Z, svd = PyInt r -> 0 <= r ->
     prototype_rows (rank_of svd) C = Nat.min (Z.to_nat r) C) /\
  (forall r : Z, svd = PyInt r -> 0 <= r <= Z.of_nat C ->
     prototype_rows (rank_of svd) C = Z.to_nat r).
Proof.
  repeat split.
  - intros ->. reflexivity.
  - intros r -> Hr. cbn. apply py_slice_stop_nonneg, Hr.
  - intros r -> Hr. cbn. apply py_slice_stop_within, Hr.
Qed.

Lemma fit_constructed (classes : option (list label)) (estimator : string)
  (svd : pyval) (self : ERPCovariances) (X : ndarray3) (y : list label)
  (protos : list Matrix) :
  ERPCovariances_init classes estimator svd = Ok self ->
  length y = n_trials X ->
  class_order classes y <> [] ->
  mapM (spec_prototype (rank_of svd) X y) (class_order classes y) =
    Ok protos ->
  mapM (class_prototype svd X y) (class_order classes y) = Ok protos /\
  ERPCovariances_fit X y self =
  (Ok (mk_ERPCovariances classes estimator svd (P_array (concat protos))),
   mk_ERPCovariances classes estimator svd (P_array (concat protos))).
Proof.
  intros Hinit Hlen Hne Hspec.
  apply init_ok_inv in Hinit. destruct Hinit as [-> Hsvd].
  assert (Hmap : mapM (class_prototype svd X y) (class_order classes y) =
                 Ok protos).
  { rewrite <- Hspec. apply mapM_ext. intros c.
    apply class_prototype_spec; assumption. }
  split; [exact Hmap|].
  apply (@fit_ok X y (mk_ERPCovariances classes estimator svd P_unset) _ Hmap).
  intros ->.
  destruct (@mapM_Forall _ _ _ (fun _ => True) _ _ Hmap) as [_ Hl];
    [trivial|].
  destruct (class_order classes y); [contradiction | discriminate].
Qed.

Lemma mapM_spec_prototype (svd : pyval) (X : ndarray3) (y : list label)
  (order : list label) :
  svd = PyNone \/ isinstance svd cls_int = true ->
  length y = n_trials X ->
  mapM (class_prototype svd X y) order =
  mapM (spec_prototype (rank_of svd) X y) order.
Proof.
  intros Hsvd Hlen. apply mapM_ext. intros c.
  apply class_prototype_spec; assumption.
Qed.

Lemma class_mean_entry (X : ndarray3) (y : list label) (c : label)
  (r s : nat) :
  (r < n_channels X)%nat -> (s < n_samples X)%nat ->
  nth s (nth r (class_mean X y c) []) szero =
  sdivn (fold_left sadd
           (map (fun M => nth s (nth r M []) szero) (trials_of_class X y c))
           szero)
        (length (trials_of_class X y c)).
Proof.
  intros Hr Hs. unfold class_mean, numpy_mean_axis0.
  cbn [n_channels n_samples n_trials trials].
  set (cell := fun r s : nat =>
         sdivn (ssum (map (fun M : Matrix => entry M r s)
                          (trials_of_class X y c)))
               (length (trials_of_class X y c))).
  change (nth s (nth r (map (fun r => map (cell r) (seq 0 (n_samples X)))
                            (seq 0 (n_channels X))) []) szero =
          cell r s).
  rewrite (nth_indep _ [] (map (cell 0%nat) (seq 0 (n_samples X))))
    by (rewrite length_map, length_seq; exact Hr).
  rewrite (map_nth (fun r => map (cell r) (seq 0 (n_samples X)))),
    seq_nth by exact Hr.
  rewrite (nth_indep _ szero (cell (0 + r)%nat 0%nat))
    by (rewrite length_map, length_seq; exact Hs).
  rewrite (map_nth (cell (0 + r)%nat)), seq_nth by exact Hs.
  reflexivity.
Qed.

(** X18. For an object built by the constructor, a batch with aligned
    labels and a non-empty class set (the configured subset if given,
    otherwise the distinct label values), [fit] returns exactly when the
    decomposition returns on every class mean it is asked for, and then
    stores, as its only change to the object, the concatenation along
    the row axis, in class order, of the per-class prototypes; it raises
    what the decomposition raises otherwise. The prototype of a class
    is the mean over the trials whose label equals it (entry by entry
    their sum divided by their number), replaced when a rank [k] is
    configured by its projection onto its first [k] left singular
    vectors. On a batch with [C] channels and [T] samples each prototype
    is a [(C, T)] matrix without reduction and a [(k, T)] matrix with a
    rank [0 <= k <= C]. *)
Theorem ERPCovariances_fit_prototype_set
  (classes : option (list label)) (estimator : string) (svd : pyval)
  (self : ERPCovariances) (X : ndarray3) (y : list label) :
  svd_shape_contract ->
  ERPCovariances_init classes estimator svd = Ok self ->
  length y = n_trials X ->
  class_order classes y <> [] ->
  fst (ERPCovariances_fit X y self) =
    result_map
      (fun protos =>
         mk_ERPCovariances classes estimator svd (P_array (concat protos)))
      (mapM (spec_prototype (rank_of svd) X y) (class_order classes y)) /\
  (forall protos : list Matrix,
     mapM (spec_prototype (rank_of svd) X y) (class_order classes y) =
       Ok protos ->
     snd (ERPCovariances_fit X y self) =
       mk_ERPCovariances classes estimator svd (P_array (concat protos)) /\
     length protos = length (class_order classes y) /\
     (svd = PyNone ->
      Forall (is_matrix (n_channels X) (n_samples X)) protos) /\
     (forall k : Z, svd = PyInt k -> 0 <= k <= Z.of_nat (n_channels X) ->
      Forall (is_matrix (Z.to_nat k) (n_samples X)) protos)) /\
  (forall (c : label) (r s : nat),
     (r < n_channels X)%nat -> (s < n_samples X)%nat ->
     nth s (nth r (class_mean X y c) []) szero =
     sdivn (fold_left sadd
              (map (fun M => nth s (nth r M []) szero)
                   (trials_of_class X y c))
              szero)
           (length (trials_of_class X y c))).
Proof.
  intros Hsvd Hinit Hlen Hne.
  pose proof (@init_ok_inv _ _ _ _ Hinit) as [Hself Hint].
  split; [|split].
  - pose proof (@mapM_spec_prototype svd X y (class_order classes y)
                  Hint Hlen) as Heq.
    destruct (mapM (spec_prototype (rank_of svd) X y)
                   (class_order classes y)) as [protos|e] eqn:Hspec.
    + destruct (@fit_constructed _ _ _ _ X y _ Hinit Hlen Hne Hspec)
        as [_ Hfit].
      rewrite Hfit. reflexivity.
    + subst self.
      destruct (@fit_raise_early X y
                  (mk_ERPCovariances classes estimator svd P_unset) e Heq)
        as [s Hfit].
      rewrite Hfit. reflexivity.
  - intros protos Hspec.
    destruct (@fit_constructed _ _ _ _ X y _ Hinit Hlen Hne Hspec)
      as [Hmap Hfit].
    destruct (@mapM_Forall _ _ _
                (is_matrix (prototype_rows (rank_of svd) (n_channels X))
                           (n_samples X)) _ _ Hmap) as [Hall Hl].
    { intros c p Hp. apply (@class_prototype_shape _ _ _ _ _ Hsvd Hp). }
    destruct (prototype_rows_cases svd (n_channels X)) as (Hnone & _ & Hin).
    rewrite Hfit. repeat split; try assumption.
    + intros H. rewrite (Hnone H) in Hall. exact Hall.
    + intros k H Hk. rewrite (Hin k H Hk) in Hall. exact Hall.
  - intros c r s. apply class_mean_entry.
Qed.

(** C10. With [classes=None] the class set is [numpy.unique(y)]: it is
    strictly ascending and holds exactly the label values, and the
    blocks of the prototype set follow it; this is not the order of
    first appearance, as the labels [5, 3] show. *)
Theorem ERPCovariances_fit_default_class_order
  (estimator : string) (svd : pyval) (self : ERPCovariances) (X : ndarray3)
  (y : list label) (protos : list Matrix) :
  ERPCovariances_init None estimator svd = Ok self ->
  length y = n_trials X ->
  y <> [] ->
  mapM (spec_prototype (rank_of svd) X y) (numpy_unique y) = Ok protos ->
  class_order (erp_classes self) y = numpy_unique y /\
  StronglySorted Z.lt (numpy_unique y) /\
  (forall c : label, In c (numpy_unique y) <-> In c y) /\
  ERPCovariances_fit X y self =
  (Ok (mk_ERPCovariances None estimator svd (P_array (concat protos))),
   mk_ERPCovariances None estimator svd (P_array (concat protos))) /\
  numpy_unique [5; 3] = [3; 5] /\
  first_appearance [5; 3] = [5; 3].
Proof.
  intros Hinit Hlen Hne Hspec.
  assert (Hfit := @fit_constructed None _ _ _ X y _ Hinit Hlen
                    (numpy_unique_nonempty Hne) Hspec).
  apply init_ok_inv in Hinit. destruct Hinit as [-> _].
  repeat split.
  - apply numpy_unique_sorted.
  - apply numpy_unique_In.
  - apply numpy_unique_In.
  - apply Hfit.
Qed.

Lemma stackable_rows (X : ndarray3) (P : Matrix) :
  Forall (fun row => length row = n_samples X) P -> stackable X P = true.
Proof.
  intros Hrows. apply forallb_forall. intros row Hin.
  rewrite Forall_forall in Hrows. apply Nat.eqb_eq. auto.
Qed.

(** X19. Once [fit] has succeeded on a batch with [C] channels, [T]
    samples and [k] classes, [transform] of a batch of [N] trials with
    [C] channels and [T] samples leaves the object as it is and returns
    [N] square matrices whose side is the row count of the prototype set
    plus [C]: [C * k + C] without reduction, and [r * k + C] with a rank
    [0 <= r <= C]. *)
Theorem ERPCovariances_transform_shape
  (classes : option (list label)) (estimator : string) (svd : pyval)
  (self fitted : ERPCovariances) (Xfit X : ndarray3) (y : list label)
  (est : Matrix -> Matrix) :
  svd_shape_contract ->
  est_shape_contract ->
  ERPCovariances_init classes estimator svd = Ok self ->
  fst (ERPCovariances_fit Xfit y self) = Ok fitted ->
  check_est estimator = Ok est ->
  is_ndarray3 X ->
  n_channels Xfit = n_channels X ->
  n_samples Xfit = n_samples X ->
  let C := n_channels X in
  let k := length (class_order classes y) in
  exists (covmats : list Matrix) (P : Matrix),
    ERPCovariances_transform X fitted = (Ok covmats, fitted) /\
    length covmats = n_trials X /\
    erp_P fitted = P_array P /\
    Forall (is_matrix (length P + C) (length P + C)) covmats /\
    (svd = PyNone -> length P = (C * k)%nat) /\
    (forall r : Z, svd = PyInt r -> 0 <= r <= Z.of_nat C ->
       length P = (Z.to_nat r * k)%nat).
Proof.
  intros Hsvd Hest Hinit Hfit Hreg [HN Htrials] HC HT C k.
  apply init_ok_inv in Hinit. destruct Hinit as [-> _].
  apply fit_inv in Hfit. cbn [erp_svd erp_classes] in Hfit.
  destruct Hfit as (protos & Hmap & _ & ->).
  destruct (@mapM_Forall _ _ _
              (is_matrix (prototype_rows (rank_of svd) (n_channels Xfit))
                         (n_samples Xfit)) _ _ Hmap) as [Hall Hl].
  { intros c p Hp. apply (@class_prototype_shape _ _ _ _ _ Hsvd Hp). }
  apply concat_shape in Hall. destruct Hall as [Hrows Hcols].
  rewrite Hl, HC in Hrows. fold C k in Hrows. rewrite HT in Hcols.
  unfold ERPCovariances_transform. run_method. unfold covariances_EP.
  cbn [with_P erp_P erp_estimator]. rewrite Hreg. cbn [result_bind].
  rewrite (@stackable_rows X _ Hcols), orb_true_r.
  exists (map (fun Xi => est (super_trial (concat protos) Xi)) (trials X)).
  exists (concat protos).
  split; [reflexivity|].
  split; [rewrite length_map; exact HN|].
  split; [reflexivity|].
  split.
  - apply Forall_map. eapply Forall_impl; [|exact Htrials].
    intros Xi [HXi _]. cbn beta.
    pose proof (Hest _ _ (super_trial (concat protos) Xi) Hreg) as Hsq.
    unfold super_trial in Hsq at 1 2. rewrite length_app, HXi in Hsq.
    exact Hsq.
  - destruct (prototype_rows_cases svd C) as (Hnone & _ & Hin).
    split.
    + intros H. rewrite Hrows, (Hnone H). reflexivity.
    + intros r H Hr. rewrite Hrows, (Hin r H Hr). reflexivity.
Qed.

(** ** [CospCovariances] *)

Lemma transform_loop_step (X : ndarray3) (i : nat) (range : list nat)
  (Xi : Matrix) (out : list (list Matrix)) (st : Cosp_state) :
  getitem X i = Ok Xi ->
  transform_loop X (i :: range) out st =
  let st' := mk_Cosp_state (receiver st)
               (calls st ++ [call_of (receiver st) Xi]) in
  match cospectrum Xi (_window (receiver st)) (_overlap (receiver st))
                   (_fmin (receiver st)) (_fmax (receiver st))
                   (_fs (receiver st)) with
  | Ok Sp => transform_loop X range (out ++ [real_part Sp]) st'
  | Raise e => (Raise e, st')
  end.
Proof.
  intros Hget. cbn [transform_loop].
  unfold bind, lift, get, call_cospectrum, call_of. rewrite Hget.
  destruct (cospectrum Xi (_window (receiver st)) (_overlap (receiver st))
              (_fmin (receiver st)) (_fmax (receiver st))
              (_fs (receiver st))); reflexivity.
Qed.

Lemma transform_loop_run (X : ndarray3) (rest : list Matrix) :
  forall (pre : list Matrix) (out : list (list Matrix)) (st : Cosp_state),
    trials X = pre ++ rest ->
    let run := transform_loop X (seq (length pre) (length rest)) out st in
    fst run =
      result_map (fun outs => out ++ outs)
                 (mapM (CospCovariances_trial (receiver st)) rest) /\
    receiver (snd run) = receiver st /\
    (forall outs : list (list Matrix),
       mapM (CospCovariances_trial (receiver st)) rest = Ok outs ->
       calls (snd run) = calls st ++ map (call_of (receiver st)) rest).
Proof.
  induction rest as [|Xi rest IH]; intros pre out st Hsplit run; subst run.
  - cbn. rewrite !app_nil_r. auto.
  - cbn [length seq mapM map].
    assert (Hget : getitem X (length pre) = Ok Xi).
    { unfold getitem. rewrite Hsplit, nth_error_app2 by lia.
      rewrite Nat.sub_diag. reflexivity. }
    rewrite (@transform_loop_step _ _ _ _ _ _ Hget). cbn zeta.
    unfold CospCovariances_trial at 1 3.
    destruct (cospectrum Xi (_window (receiver st)) (_overlap (receiver st))
                (_fmin (receiver st)) (_fmax (receiver st))
                (_fs (receiver st))) as [Sp|e]; cbn [result_map result_bind].
    + specialize (IH (pre ++ [Xi]) (out ++ [real_part Sp])
                     (mk_Cosp_state (receiver st)
                        (calls st ++ [call_of (receiver st) Xi]))).
      rewrite length_app, Nat.add_1_r in IH. cbn [length] in IH.
      destruct IH as (Hfst & Hrecv & Hcalls).
      { rewrite Hsplit, <- app_assoc. reflexivity. }
      cbn [receiver calls] in Hfst, Hrecv, Hcalls.
      repeat split.
      * rewrite Hfst.
        destruct (mapM (CospCovariances_trial (receiver st)) rest);
          cbn; [rewrite <- app_assoc|]; reflexivity.
      * exact Hrecv.
      * intros outs Houts.
        destruct (mapM (CospCovariances_trial (receiver st)) rest) as [os|e];
          [|discriminate].
        rewrite (Hcalls os eq_refl), <- app_assoc. reflexivity.
    + cbn. repeat split. intros outs H. discriminate.
Qed.

Lemma transform_loop_receiver (X : ndarray3) (range : list nat) :
  forall (out : list (list Matrix)) (st st' : Cosp_state),
    receiver st = receiver st' ->
    receiver (snd (transform_loop X range out st)) = receiver st /\
    fst (transform_loop X range out st) =
    fst (transform_loop X range out st').
Proof.
  induction range as [|i range IH]; intros out st st' Heq;
    cbn [transform_loop].
  - split; reflexivity.
  - unfold bind, lift, get, call_cospectrum. rewrite <- Heq.
    destruct (getitem X i) as [Xi|e]; [|split; reflexivity].
    destruct (cospectrum Xi (_window (receiver st)) (_overlap (receiver st))
                (_fmin (receiver st)) (_fmax (receiver st))
                (_fs (receiver st))) as [Sp|e]; [|split; reflexivity].
    apply (IH (out ++ [real_part Sp])
              (mk_Cosp_state (receiver st)
                 (calls st ++ [mk_cospectrum_call Xi (_window (receiver st))
                                 (_overlap (receiver st)) (_fmin (receiver st))
                                 (_fmax (receiver st)) (_fs (receiver st))]))
              (mk_Cosp_state (receiver st)
                 (calls st' ++ [mk_cospectrum_call Xi (_window (receiver st))
                                  (_overlap (receiver st)) (_fmin (receiver st))
                                  (_fmax (receiver st)) (_fs (receiver st))]))
              eq_refl).
Qed.

Lemma CospCovariances_transform_run (X : ndarray3) (st : Cosp_state) :
  is_ndarray3 X ->
  fst (CospCovariances_transform X st) =
    mapM (CospCovariances_trial (receiver st)) (trials X) /\
  receiver (snd (CospCovariances_transform X st)) = receiver st /\
  (forall outs : list (list Matrix),
     mapM (CospCovariances_trial (receiver st)) (trials X) = Ok outs ->
     calls (snd (CospCovariances_transform X st)) =
     calls st ++ map (call_of (receiver st)) (trials X)).
Proof.
  intros [HN _]. unfold CospCovariances_transform. rewrite <- HN.
  destruct (@transform_loop_run X (trials X) [] [] st eq_refl)
    as (Hfst & Hrecv & Hcalls).
  cbn [length] in Hfst, Hrecv, Hcalls.
  repeat split; try assumption.
  rewrite Hfst.
  destruct (mapM (CospCovariances_trial (receiver st)) (trials X));
    reflexivity.
Qed.

Lemma CospCovariances_init_fields (fuel : nat) (window : Z)
  (overlap : scalar) (fmin fmax fs : option scalar) (phase_correction : bool)
  (self : CospCovariances) :
  CospCovariances_init fuel window overlap fmin fmax fs phase_correction =
    Some self ->
  _nextpow2 fuel window = Some (_window self) /\
  _overlap self = overlap /\ _fmin self = fmin /\ _fmax self = fmax /\
  _fs self = fs.
Proof.
  unfold CospCovariances_init.
  destruct (_nextpow2 fuel window) as [w|]; [|discriminate].
  intros H; inversion H; subst. repeat split.
Qed.

Lemma mapM_result_map {A B C : Type} (f : A -> result B) (g : B -> C)
  (l : list A) :
  mapM (fun a => result_map g (f a)) l = result_map (map g) (mapM f l).
Proof.
  induction l as [|a l IH]; cbn; [reflexivity|].
  rewrite IH. destruct (f a) as [b|e]; cbn; [|reflexivity].
  destruct (mapM f l); reflexivity.
Qed.

(** C5. On a batch on whose trials [cospectrum] returns, [transform]
    calls [cospectrum] once per trial, in batch order, each time on the
    trial and the window, overlap, fmin, fmax and fs stored in the
    object (for an object built by the constructor: the power-of-two
    window and the four other arguments as given), and returns, stacked
    in batch order, what the calls returned with every complex entry of
    every frequency bin replaced by its real part. *)
Theorem CospCovariances_transform_calls
  (self : CospCovariances) (log : list cospectrum_call) (X : ndarray3)
  (stacks : list (list (list (list (scalar * scalar))))) :
  is_ndarray3 X ->
  mapM (fun Xi =>
          cospectrum Xi (_window self) (_overlap self) (_fmin self)
                     (_fmax self) (_fs self))
       (trials X) = Ok stacks ->
  CospCovariances_transform X (mk_Cosp_state self log) =
  (Ok (map (fun S => map (fun bin => map (fun row => map fst row) bin) S)
           stacks),
   mk_Cosp_state self
     (log ++ map (fun Xi =>
                    mk_cospectrum_call Xi (_window self) (_overlap self)
                      (_fmin self) (_fmax self) (_fs self))
                 (trials X))) /\
  length stacks = n_trials X /\
  (forall (fuel : nat) (window : Z) (overlap : scalar)
          (fmin fmax fs : option scalar) (phase_correction : bool),
     CospCovariances_init fuel window overlap fmin fmax fs phase_correction =
       Some self ->
     _nextpow2 fuel window = Some (_window self) /\
     _overlap self = overlap /\ _fmin self = fmin /\ _fmax self = fmax /\
     _fs self = fs).
Proof.
  intros HX Hstacks.
  assert (Houts : mapM (CospCovariances_trial self) (trials X) =
                  Ok (map real_part stacks)).
  { unfold CospCovariances_trial.
    rewrite (mapM_result_map
               (fun Xi => cospectrum Xi (_window self) (_overlap self)
                            (_fmin self) (_fmax self) (_fs self))
               real_part).
    rewrite Hstacks. reflexivity. }
  destruct (@CospCovariances_transform_run X (mk_Cosp_state self log) HX)
    as (Hfst & Hrecv & Hcalls).
  cbn [receiver calls] in Hfst, Hrecv, Hcalls.
  specialize (Hcalls _ Houts). rewrite Houts in Hfst.
  split; [|split].
  - destruct (CospCovariances_transform X (mk_Cosp_state self log))
      as [r [self' log']].
    cbn in Hfst, Hrecv, Hcalls. subst. reflexivity.
  - destruct (@mapM_Forall _ _ _ (fun _ => True) _ _ Hstacks) as [_ Hl];
      [trivial|].
    destruct HX as [HN _]. congruence.
  - intros fuel window overlap fmin fmax fs phase_correction Hinit.
    exact (CospCovariances_init_fields _ _ _ _ _ _ _ Hinit).
Qed.

(** ** Batch order *)

Lemma nth_error_mapM {A B : Type} (f : A -> result B) (l : list A) :
  forall (bs : list B) (i : nat) (a : A),
    mapM f l = Ok bs ->
    nth_error l i = Some a ->
    exists b : B, nth_error bs i = Some b /\ f a = Ok b.
Proof.
  induction l as [|x l IH]; intros bs i a Hmap Hnth.
  - destruct i; discriminate.
  - cbn in Hmap. destruct (f x) as [b|e] eqn:Hfx; cbn in Hmap; [|discriminate].
    destruct (mapM f l) as [bs'|e]; cbn in Hmap; [|discriminate].
    inversion Hmap; subst. destruct i as [|i]; cbn in *.
    + inversion Hnth; subst. eauto.
    + eapply IH; eauto.
Qed.

Lemma nth_error_map_some {A B : Type} (f : A -> B) (l : list A) (i : nat)
  (a : A) :
  nth_error l i = Some a -> nth_error (map f l) i = Some (f a).
Proof. intros H. rewrite nth_error_map, H. reflexivity. Qed.

(** C6. Every transform that returns, returns one result per trial and
    puts at index [i] the result computed from trial [i] alone (and the
    object): the estimator rule on the trial for [Covariances], on the
    prototype set stacked above the trial for [ERPCovariances], on the
    evoked responses stacked above the (filtered) trial for
    [XdawnCovariances], and the real part of the cospectrum of the trial
    for [CospCovariances]. *)
Theorem transforms_preserve_order :
  (forall (self : Covariances) (X : ndarray3) (covmats : list Matrix),
     fst (Covariances_transform X self) = Ok covmats ->
     exists est : Matrix -> Matrix,
       check_est (cov_estimator self) = Ok est /\
       length covmats = length (trials X) /\
       forall (i : nat) (Xi : Matrix),
         nth_error (trials X) i = Some Xi ->
         nth_error covmats i = Some (est Xi)) /\
  (forall (self : ERPCovariances) (X : ndarray3) (covmats : list Matrix),
     fst (ERPCovariances_transform X self) = Ok covmats ->
     exists (est : Matrix -> Matrix) (P : Matrix),
       check_est (erp_estimator self) = Ok est /\
       erp_P self = P_array P /\
       length covmats = length (trials X) /\
       forall (i : nat) (Xi : Matrix),
         nth_error (trials X) i = Some Xi ->
         nth_error covmats i = Some (est (super_trial P Xi))) /\
  (forall (self : XdawnCovariances) (X : ndarray3) (covmats : list Matrix),
     fst (XdawnCovariances_transform X self) = Ok covmats ->
     exists (est : Matrix -> Matrix) (E : Matrix),
       check_est (xdawn_estimator self) = Ok est /\
       evokeds_ (Xd self) = Some E /\
       length covmats = length (trials X) /\
       forall (i : nat) (Xi : Matrix),
         nth_error (trials X) i = Some Xi ->
         nth_error covmats i =
         Some (est (super_trial E (XdawnCovariances_project self Xi)))) /\
  (forall (st : Cosp_state) (X : ndarray3) (outs : list (list Matrix)),
     is_ndarray3 X ->
     fst (CospCovariances_transform X st) = Ok outs ->
     length outs = length (trials X) /\
     forall (i : nat) (Xi : Matrix),
       nth_error (trials X) i = Some Xi ->
       exists o : list Matrix,
         nth_error outs i = Some o /\
         CospCovariances_trial (receiver st) Xi = Ok o).
Proof.
  split; [|split; [|split]].
  - intros self X covmats.
    unfold Covariances_transform, bind, get, lift, ret, covariances.
    destruct (check_est (cov_estimator self)) as [est|e]; cbn;
      [|discriminate].
    intros H; inversion H; subst. exists est.
    split; [reflexivity|]. split; [apply length_map|].
    intros i Xi Hi. apply nth_error_map_some, Hi.
  - intros self X covmats.
    unfold ERPCovariances_transform, bind, get, lift, ret, raise,
      covariances_EP.
    destruct (erp_P self) as [|l|P]; cbn [fst]; try discriminate.
    destruct (check_est (erp_estimator self)) as [est|e]; cbn [result_bind];
      [|discriminate].
    destruct (Nat.eqb (length (trials X)) 0 || stackable X P);
      cbn [fst]; [|discriminate].
    intros H; inversion H; subst. exists est, P.
    repeat split; [apply length_map|].
    intros i Xi Hi.
    apply (nth_error_map_some (fun Xi => est (super_trial P Xi))), Hi.
  - intros self X covmats.
    unfold XdawnCovariances_transform, XdawnCovariances_project, bind, get,
      lift, ret, covariances_EP, Xdawn_transform, Xdawn_evokeds.
    destruct (applyfilters self).
    + destruct (filters_ (Xd self)) as [W|]; cbn [fst]; [|discriminate].
      destruct (evokeds_ (Xd self)) as [E|]; cbn [fst]; [|discriminate].
      destruct (check_est (xdawn_estimator self)) as [est|e];
        cbn [result_bind]; [|discriminate].
      match goal with
      | |- context [if ?b then _ else _] => destruct b
      end; cbn [fst trials]; [|discriminate].
      intros H; inversion H; subst. exists est, E.
      repeat split; [rewrite !length_map; reflexivity|].
      intros i Xi Hi. rewrite map_map.
      apply (nth_error_map_some
               (fun Xi => est (super_trial E (project W Xi)))), Hi.
    + cbn [fst]. destruct (evokeds_ (Xd self)) as [E|]; cbn [fst];
        [|discriminate].
      destruct (check_est (xdawn_estimator self)) as [est|e];
        cbn [result_bind]; [|discriminate].
      match goal with
      | |- context [if ?b then _ else _] => destruct b
      end; cbn [fst]; [|discriminate].
      intros H; inversion H; subst. exists est, E.
      repeat split; [apply length_map|].
      intros i Xi Hi.
      apply (nth_error_map_some (fun Xi => est (super_trial E Xi))), Hi.
  - intros st X outs HX Hrun.
    destruct (@CospCovariances_transform_run X st HX) as (Hfst & _ & _).
    rewrite Hrun in Hfst. symmetry in Hfst.
    split.
    + destruct (@mapM_Forall _ _ _ (fun _ => True) _ _ Hfst) as [_ Hl];
        [trivial | exact Hl].
    + intros i Xi Hi. exact (nth_error_mapM _ _ _ Hfst Hi).
Qed.

(** ** Frame conditions *)

(** C7. [fit] of [Covariances] and of [CospCovariances] returns the
    receiver and leaves every field (and, for [CospCovariances], the
    trace of external calls) as it was, whatever the batch and the
    labels; [CospCovariances.fit_transform(X, y)] is [transform(X)], and
    so is [fit] followed by [transform]. *)
Theorem stateless_fit_is_identity :
  (forall (self : Covariances) (X : ndarray3) (y : option (list label)),
     Covariances_fit X y self = (Ok self, self)) /\
  (forall (st : Cosp_state) (X : ndarray3) (y : option (list label)),
     CospCovariances_fit X y st = (Ok (receiver st), st)) /\
  (forall (st : Cosp_state) (X : ndarray3) (y : option (list label)),
     CospCovariances_fit_transform X y st = CospCovariances_transform X st) /\
  (forall (st : Cosp_state) (X : ndarray3) (y : option (list label)),
     (CospCovariances_fit X y ;; CospCovariances_transform X)%method st =
     CospCovariances_fit_transform X y st).
Proof. repeat split. Qed.

Lemma XdawnCovariances_transform_readonly (self : XdawnCovariances)
  (X : ndarray3) :
  snd (XdawnCovariances_transform X self) = self.
Proof.
  unfold XdawnCovariances_transform. run_method.
  destruct (applyfilters self).
  - destruct (Xdawn_transform (Xd self) X); [|reflexivity].
    destruct (Xdawn_evokeds (Xd self)); [|reflexivity].
    destruct (covariances_EP _ _ _); reflexivity.
  - cbn. destruct (Xdawn_evokeds (Xd self)); [|reflexivity].
    destruct (covariances_EP _ _ _); reflexivity.
Qed.

Lemma ERPCovariances_transform_readonly (self : ERPCovariances)
  (X : ndarray3) :
  snd (ERPCovariances_transform X self) = self.
Proof.
  unfold ERPCovariances_transform. run_method.
  destruct (erp_P self); try reflexivity.
  destruct (covariances_EP _ _ _); reflexivity.
Qed.

Lemma Covariances_transform_readonly (self : Covariances) (X : ndarray3) :
  snd (Covariances_transform X self) = self.
Proof.
  unfold Covariances_transform. run_method.
  destruct (covariances _ _); reflexivity.
Qed.

(** C8. [XdawnCovariances.fit_transform(X, y)] is [fit(X, y)] followed by
    [transform(X)]: if [fit] raises, so does it, with the same exception
    and the same state; otherwise it returns what [transform(X)] returns
    on the fitted object, and leaves the object as [fit] left it. *)
Theorem XdawnCovariances_fit_transform_is_fit_then_transform
  (self : XdawnCovariances) (X : ndarray3) (y : list label) :
  XdawnCovariances_fit_transform X y self =
  match XdawnCovariances_fit X y self with
  | (Ok _, fitted) =>
      (fst (XdawnCovariances_transform X fitted), fitted)
  | (Raise e, s) => (Raise e, s)
  end.
Proof.
  unfold XdawnCovariances_fit_transform. unfold bind at 1.
  destruct (XdawnCovariances_fit X y self) as [[r|e] fitted]; [|reflexivity].
  rewrite <- (XdawnCovariances_transform_readonly fitted X) at 3.
  destruct (XdawnCovariances_transform X fitted); reflexivity.
Qed.

Lemma twice_readonly {S A : Type} (m : method S A) (s : S) (a : A) :
  snd (m s) = s -> fst (m s) = Ok a -> twice m s = (Ok (a, a), s).
Proof.
  intros Hsnd Hfst. unfold twice, bind, ret.
  destruct (m s) as [r s'] eqn:Hrun. cbn in Hsnd, Hfst. subst.
  rewrite Hrun. reflexivity.
Qed.

(** C9. [transform] writes nothing: after it, with or without an
    exception, the object (prototype set and spatial filter artifact
    included) is the one before it; and a second call on the same batch
    returns what the first returned. *)
Theorem transform_reads_only :
  (forall (self : Covariances) (X : ndarray3),
     snd (Covariances_transform X self) = self /\
     forall covmats : list Matrix,
       fst (Covariances_transform X self) = Ok covmats ->
       twice (Covariances_transform X) self = (Ok (covmats, covmats), self)) /\
  (forall (self : ERPCovariances) (X : ndarray3),
     snd (ERPCovariances_transform X self) = self /\
     forall covmats : list Matrix,
       fst (ERPCovariances_transform X self) = Ok covmats ->
       twice (ERPCovariances_transform X) self =
       (Ok (covmats, covmats), self)) /\
  (forall (self : XdawnCovariances) (X : ndarray3),
     snd (XdawnCovariances_transform X self) = self /\
     forall covmats : list Matrix,
       fst (XdawnCovariances_transform X self) = Ok covmats ->
       twice (XdawnCovariances_transform X) self =
       (Ok (covmats, covmats), self)) /\
  (forall (st : Cosp_state) (X : ndarray3),
     receiver (snd (CospCovariances_transform X st)) = receiver st /\
     forall outs : list (list Matrix),
       fst (CospCovariances_transform X st) = Ok outs ->
       fst (twice (CospCovariances_transform X) st) = Ok (outs, outs) /\
       receiver (snd (twice (CospCovariances_transform X) st)) =
       receiver st).
Proof.
  split; [|split; [|split]].
  - intros self X. split; [apply Covariances_transform_readonly|].
    intros covmats. apply twice_readonly, Covariances_transform_readonly.
  - intros self X. split; [apply ERPCovariances_transform_readonly|].
    intros covmats. apply twice_readonly, ERPCovariances_transform_readonly.
  - intros self X. split; [apply XdawnCovariances_transform_readonly|].
    intros covmats. apply twice_readonly, XdawnCovariances_transform_readonly.
  - intros st X. unfold CospCovariances_transform.
    set (range := seq 0 (n_trials X)).
    destruct (@transform_loop_receiver X range [] st st eq_refl) as [Hrecv _].
    split; [exact Hrecv|].
    intros outs Hfst. unfold twice, bind, ret.
    destruct (transform_loop X range [] st) as [r st1] eqn:Hrun1.
    cbn in Hfst, Hrecv. subst r.
    destruct (@transform_loop_receiver X range [] st1 st Hrecv)
      as [Hrecv2 Hsame].
    rewrite Hrun1 in Hsame. cbn in Hsame.
    destruct (transform_loop X range [] st1) as [r2 st2].
    cbn in Hsame, Hrecv2 |- *. subst r2. cbn. split; congruence.
Qed.

(** * Further properties of the module *)

(** ** [_nextpow2] *)

Lemma _nextpow2_some (i : Z) (fuel : nat) (r : Z) :
  _nextpow2 fuel i = Some r -> r = 2 ^ Z.log2_up i.
Proof.
  intros Hrun.
  destruct (@_nextpow2_spec i (fuel + nextpow2_fuel i)) as
    (k & Hk & Hfull & Hle & Hmin); [lia|].
  unfold _nextpow2 in *.
  rewrite (@nextpow2_while_more_fuel i fuel (nextpow2_fuel i) 1 r Hrun)
    in Hfull.
  inversion Hfull as [Hr]. clear Hfull.
  destruct (Z.le_gt_cases i 1) as [Hsmall|Hbig].
  - rewrite (Z.log2_up_eqn0 i Hsmall).
    assert (H1 : 2 ^ k <= 2 ^ 0) by (apply Hmin; cbn; lia).
    assert (H2 : 0 < 2 ^ k) by (apply Z.pow_pos_nonneg; lia).
    change (2 ^ 0) with 1 in *. lia.
  - assert (Hup : Z.log2_up i <= k) by (apply Z.log2_up_le_pow2; lia).
    assert (H1 : 2 ^ k <= 2 ^ Z.log2_up i).
    { apply Hmin; [apply Z.log2_up_nonneg|].
      apply Z.log2_up_spec. exact Hbig. }
    assert (H2 : 2 ^ Z.log2_up i <= 2 ^ k)
      by (apply Z.pow_le_mono_r; lia).
    lia.
Qed.

Lemma nextpow2_while_doublings (i : Z) (fuel : nat) :
  forall j : Z,
    0 <= j <= Z.log2_up i ->
    (Z.to_nat (Z.log2_up i - j) < fuel)%nat ->
    exists r : Z, nextpow2_while fuel (2 ^ j) i = Some r.
Proof.
  induction fuel as [|fuel IH]; intros j Hj Hfuel; [lia|].
  cbn [nextpow2_while].
  destruct (Z.ltb_spec (2 ^ j) i) as [Hlt|Hge]; [|eauto].
  assert (Hbig : 1 < i).
  { assert (0 < 2 ^ j) by (apply Z.pow_pos_nonneg; lia). lia. }
  assert (Hj' : j < Z.log2_up i).
  { destruct (Z.log2_up_spec i Hbig) as [_ Hup].
    apply (Z.pow_lt_mono_r_iff 2); lia. }
  replace (2 ^ j * 2) with (2 ^ (j + 1))
    by (rewrite Z.pow_add_r by lia; rewrite Z.pow_1_r; reflexivity).
  apply IH; lia.
Qed.

Lemma nextpow2_while_short (i : Z) (fuel : nat) :
  forall j : Z,
    0 <= j ->
    (fuel <= Z.to_nat (Z.log2_up i - j))%nat ->
    nextpow2_while fuel (2 ^ j) i = None.
Proof.
  induction fuel as [|fuel IH]; intros j Hj Hfuel; [reflexivity|].
  cbn [nextpow2_while].
  assert (Hj' : j < Z.log2_up i) by lia.
  assert (Hbig : 1 < i).
  { destruct (Z.le_gt_cases i 1) as [Hs|Hb]; [|exact Hb].
    rewrite (Z.log2_up_eqn0 i Hs) in Hj'. lia. }
  destruct (Z.log2_up_spec i Hbig) as [Hlow _].
  assert (Hlt : 2 ^ j < i).
  { assert (2 ^ j <= 2 ^ Z.pred (Z.log2_up i))
      by (apply Z.pow_le_mono_r; lia).
    lia. }
  apply Z.ltb_lt in Hlt. rewrite Hlt.
  replace (2 ^ j * 2) with (2 ^ (j + 1))
    by (rewrite Z.pow_add_r by lia; rewrite Z.pow_1_r; reflexivity).
  apply IH; lia.
Qed.

(** X1. [_nextpow2(i)] is [2 ** ceil(log2 i)] (1 for [i <= 1]), and the
    loop reaches it after exactly [ceil(log2 i)] doublings: one more
    evaluation of the loop condition than that is enough, fewer are not. *)
Theorem _nextpow2_closed_form (i : Z) (fuel : nat) :
  ((Z.to_nat (Z.log2_up i) < fuel)%nat ->
   _nextpow2 fuel i = Some (2 ^ Z.log2_up i)) /\
  ((fuel <= Z.to_nat (Z.log2_up i))%nat -> _nextpow2 fuel i = None).
Proof.
  pose proof (Z.log2_up_nonneg i) as Hnn. split; intros Hfuel.
  - destruct (@nextpow2_while_doublings i fuel 0) as [r Hr];
      [lia | rewrite Z.sub_0_r; exact Hfuel |].
    change (2 ^ 0) with 1 in Hr. fold (_nextpow2 fuel i) in Hr.
    rewrite Hr. f_equal. exact (@_nextpow2_some _ _ _ Hr).
  - apply (@nextpow2_while_short i fuel 0); [lia|].
    rewrite Z.sub_0_r. exact Hfuel.
Qed.

(** X2. What [_nextpow2(i)] returns is at least [i] and, for [i >= 1],
    less than twice [i]; for [i <= 1] it is 1. *)
Theorem _nextpow2_bounds (i : Z) (fuel : nat) (r : Z) :
  _nextpow2 fuel i = Some r ->
  i <= r /\ (1 <= i -> r < 2 * i) /\ (i <= 1 -> r = 1).
Proof.
  intros Hrun. apply _nextpow2_some in Hrun. subst r.
  destruct (Z.le_gt_cases i 1) as [Hsmall|Hbig].
  - rewrite (Z.log2_up_eqn0 i Hsmall). change (2 ^ 0) with 1.
    repeat split; lia.
  - destruct (Z.log2_up_spec i Hbig) as [Hlow Hup].
    assert (Hpos : 0 < Z.log2_up i) by (apply Z.log2_up_pos; exact Hbig).
    assert (Hdouble : 2 ^ Z.log2_up i = 2 * 2 ^ Z.pred (Z.log2_up i)).
    { rewrite <- Z.pow_succ_r by lia. f_equal. lia. }
    repeat split; lia.
Qed.

(** X3. [_nextpow2] is monotone: a larger request never gets a smaller
    power of two. *)
Theorem _nextpow2_monotone (i j : Z) (fuel fuel' : nat) (r r' : Z) :
  i <= j ->
  _nextpow2 fuel i = Some r ->
  _nextpow2 fuel' j = Some r' ->
  r <= r'.
Proof.
  intros Hij Hr Hr'.
  apply _nextpow2_some in Hr. apply _nextpow2_some in Hr'. subst.
  apply Z.pow_le_mono_r; [lia|].
  destruct (Z.le_gt_cases i 0) as [Hneg|Hpos].
  - rewrite (Z.log2_up_eqn0 i) by lia. apply Z.log2_up_nonneg.
  - apply Z.log2_up_le_mono. exact Hij.
Qed.

(** X4. The window normalisation of the constructor is idempotent:
    building a second [CospCovariances] from the window a first one
    stored stores that window again. *)
Theorem CospCovariances_init_idempotent
  (fuel fuel' : nat) (window : Z) (overlap overlap' : scalar)
  (fmin fmax fs fmin' fmax' fs' : option scalar) (pc pc' : bool)
  (self self' : CospCovariances) :
  CospCovariances_init fuel window overlap fmin fmax fs pc = Some self ->
  CospCovariances_init fuel' (_window self) overlap' fmin' fmax' fs' pc' =
    Some self' ->
  _window self' = _window self.
Proof.
  intros Hfirst Hsecond.
  apply (@CospCovariances_init_fields _ _) in Hfirst.
  apply (@CospCovariances_init_fields _ _) in Hsecond.
  destruct Hfirst as [Hw _]. destruct Hsecond as [Hw' _].
  apply _nextpow2_some in Hw. apply _nextpow2_some in Hw'.
  rewrite Hw', Hw.
  rewrite Z.log2_up_pow2 by apply Z.log2_up_nonneg. reflexivity.
Qed.

(** ** [CospCovariances.transform] *)

Lemma transform_loop_fields (X : ndarray3) (range : list nat) :
  forall (out : list (list Matrix)) (st st' : Cosp_state),
    _window (receiver st) = _window (receiver st') ->
    _overlap (receiver st) = _overlap (receiver st') ->
    _fmin (receiver st) = _fmin (receiver st') ->
    _fmax (receiver st) = _fmax (receiver st') ->
    _fs (receiver st) = _fs (receiver st') ->
    calls st = calls st' ->
    fst (transform_loop X range out st) =
      fst (transform_loop X range out st') /\
    calls (snd (transform_loop X range out st)) =
      calls (snd (transform_loop X range out st')).
Proof.
  induction range as [|i range IH]; intros out st st' Hw Ho Hmin Hmax Hfs Hc.
  - cbn. auto.
  - destruct (getitem X i) as [Xi|e] eqn:Hget.
    + rewrite !(@transform_loop_step _ _ _ _ _ _ Hget). cbn zeta.
      unfold call_of. rewrite <- Hw, <- Ho, <- Hmin, <- Hmax, <- Hfs, <- Hc.
      destruct (cospectrum Xi (_window (receiver st)) (_overlap (receiver st))
                  (_fmin (receiver st)) (_fmax (receiver st))
                  (_fs (receiver st))) as [Sp|e].
      * apply IH; cbn [receiver calls]; assumption || reflexivity.
      * split; reflexivity.
    + cbn [transform_loop]. unfold bind, lift. rewrite Hget.
      cbn. auto.
Qed.

(** X5. [phase_correction] is stored by the constructor and read by
    nothing: two objects that differ in it only return the same result
    from [transform], exception included, and make the same calls to
    [cospectrum]. *)
Theorem CospCovariances_transform_ignores_phase_correction
  (window : Z) (overlap : scalar) (fmin fmax fs : option scalar)
  (pc pc' : bool) (log : list cospectrum_call) (X : ndarray3) :
  let run := fun b : bool =>
    CospCovariances_transform X
      (mk_Cosp_state (mk_CospCovariances window overlap fmin fmax fs b) log) in
  fst (run pc) = fst (run pc') /\
  calls (snd (run pc)) = calls (snd (run pc')).
Proof.
  cbn zeta. unfold CospCovariances_transform.
  apply transform_loop_fields; reflexivity.
Qed.

Lemma transform_loop_fails (X : ndarray3) (Xj : Matrix) (post : list Matrix)
  (e : exn) (pre : list Matrix) :
  forall (done : list Matrix) (out outs : list (list Matrix))
         (st : Cosp_state),
    trials X = done ++ pre ++ Xj :: post ->
    mapM (CospCovariances_trial (receiver st)) pre = Ok outs ->
    cospectrum Xj (_window (receiver st)) (_overlap (receiver st))
               (_fmin (receiver st)) (_fmax (receiver st))
               (_fs (receiver st)) = Raise e ->
    transform_loop X (seq (length done) (length (pre ++ Xj :: post))) out st =
    (Raise e,
     mk_Cosp_state (receiver st)
       (calls st ++ map (call_of (receiver st)) pre ++
        [call_of (receiver st) Xj])).
Proof.
  induction pre as [|Xi pre IH]; intros done out outs st Hsplit Hpre Hfail;
    cbn [app length seq map].
  - assert (Hget : getitem X (length done) = Ok Xj).
    { unfold getitem. rewrite Hsplit, nth_error_app2 by lia.
      rewrite Nat.sub_diag. reflexivity. }
    rewrite (@transform_loop_step _ _ _ _ _ _ Hget). cbn zeta.
    rewrite Hfail. reflexivity.
  - assert (Hget : getitem X (length done) = Ok Xi).
    { unfold getitem. rewrite Hsplit, nth_error_app2 by lia.
      rewrite Nat.sub_diag. reflexivity. }
    rewrite (@transform_loop_step _ _ _ _ _ _ Hget). cbn zeta.
    cbn [mapM] in Hpre. unfold CospCovariances_trial at 1 in Hpre.
    destruct (cospectrum Xi (_window (receiver st)) (_overlap (receiver st))
                (_fmin (receiver st)) (_fmax (receiver st))
                (_fs (receiver st))) as [Sp|e']; [|discriminate].
    cbn [result_map result_bind] in Hpre.
    destruct (mapM (CospCovariances_trial (receiver st)) pre) as [outs'|e']
      eqn:Hrest; [|discriminate].
    specialize (IH (done ++ [Xi]) (out ++ [real_part Sp]) outs'
                   (mk_Cosp_state (receiver st)
                      (calls st ++ [call_of (receiver st) Xi]))).
    rewrite length_app, Nat.add_1_r in IH. cbn [length receiver calls] in IH.
    rewrite IH.
    + rewrite <- !app_assoc. reflexivity.
    + rewrite Hsplit, <- app_assoc. reflexivity.
    + exact Hrest.
    + exact Hfail.
Qed.

(** X6. When [cospectrum] raises on a trial, [transform] raises the same
    exception and returns nothing of the trials before it; [cospectrum]
    has then been called on the trials up to and including that one, in
    batch order, and on none after it, and the object is as it was. *)
Theorem CospCovariances_transform_failing_trial
  (self : CospCovariances) (log : list cospectrum_call) (X : ndarray3)
  (pre post : list Matrix) (Xj : Matrix) (outs : list (list Matrix))
  (e : exn) :
  is_ndarray3 X ->
  trials X = pre ++ Xj :: post ->
  mapM (CospCovariances_trial self) pre = Ok outs ->
  cospectrum Xj (_window self) (_overlap self) (_fmin self) (_fmax self)
             (_fs self) = Raise e ->
  CospCovariances_transform X (mk_Cosp_state self log) =
  (Raise e,
   mk_Cosp_state self (log ++ map (call_of self) pre ++ [call_of self Xj])).
Proof.
  intros [HN _] Hsplit Hpre Hfail. unfold CospCovariances_transform.
  rewrite <- HN, Hsplit.
  apply (@transform_loop_fails X Xj post e pre [] [] outs
           (mk_Cosp_state self log)); assumption.
Qed.

(** ** [ERPCovariances.fit]: exceptions and what they leave behind *)

Lemma with_P_same (s : ERPCovariances) (v : P_attr) :
  erp_P s = v -> with_P s v = s.
Proof. intros <-. destruct s; reflexivity. Qed.

Lemma fit_loop_raise (X : ndarray3) (y : list label) (order : list label) :
  forall (s : ERPCovariances) (acc : list Matrix) (e : exn),
    erp_P s = P_list acc ->
    mapM (class_prototype (erp_svd s) X y) order = Raise e ->
    exists (pre : list label) (c : label) (post : list label)
           (ps : list Matrix),
      order = pre ++ c :: post /\
      mapM (class_prototype (erp_svd s) X y) pre = Ok ps /\
      class_prototype (erp_svd s) X y c = Raise e /\
      for_each order (fit_class X y) s =
      (Raise e, with_P s (P_list (acc ++ ps))).
Proof.
  induction order as [|c order IH]; intros s acc e HP Hmap;
    [discriminate|].
  cbn [mapM for_each] in *. unfold bind.
  rewrite (@fit_class_run X y c s acc HP).
  destruct (class_prototype (erp_svd s) X y c) as [p|e0] eqn:Hc;
    cbn [result_bind] in Hmap.
  - destruct (mapM (class_prototype (erp_svd s) X y) order) as [ps|e1]
      eqn:Hrest; cbn [result_bind] in Hmap; [discriminate|].
    inversion Hmap; subst e1.
    destruct (IH (with_P s (P_list (acc ++ [p]))) (acc ++ [p]) e eq_refl Hrest)
      as (pre & c' & post & ps & Horder & Hpre & Hc' & Hrun).
    cbn [with_P erp_svd] in Hpre, Hc'.
    exists (c :: pre), c', post, (p :: ps).
    split; [rewrite Horder; reflexivity|].
    split; [cbn [mapM]; rewrite Hc, Hpre; reflexivity|].
    split; [exact Hc'|].
    rewrite Hrun. unfold with_P; cbn. rewrite <- app_assoc. reflexivity.
  - inversion Hmap; subst e0.
    exists [], c, order, [].
    split; [reflexivity|]. split; [reflexivity|]. split; [exact Hc|].
    rewrite app_nil_r, (@with_P_same s _ HP). reflexivity.
Qed.

Lemma fit_raise (X : ndarray3) (y : list label) (self : ERPCovariances)
  (e : exn) :
  mapM (class_prototype (erp_svd self) X y)
       (class_order (erp_classes self) y) = Raise e ->
  exists (pre : list label) (c : label) (post : list label)
         (ps : list Matrix),
    class_order (erp_classes self) y = pre ++ c :: post /\
    mapM (class_prototype (erp_svd self) X y) pre = Ok ps /\
    class_prototype (erp_svd self) X y c = Raise e /\
    ERPCovariances_fit X y self = (Raise e, with_P self (P_list ps)).
Proof.
  intros Hmap.
  destruct (@fit_loop_raise X y (class_order (erp_classes self) y)
              (with_P self (P_list [])) [] e eq_refl Hmap)
    as (pre & c & post & ps & Horder & Hpre & Hc & Hrun).
  cbn [with_P erp_svd app] in Hpre, Hc, Hrun.
  exists pre, c, post, ps. repeat split; try assumption.
  unfold ERPCovariances_fit.
  unfold bind at 1. unfold get at 1.
  fold (class_order (erp_classes self) y).
  unfold bind at 1. unfold set_P at 1, bind at 1, get at 1, put.
  unfold bind at 1. rewrite Hrun. reflexivity.
Qed.

Lemma fit_no_class (X : ndarray3) (y : list label) (self : ERPCovariances) :
  class_order (erp_classes self) y = [] ->
  ERPCovariances_fit X y self =
  (Raise (ValueError "need at least one array to concatenate"),
   with_P self (P_list [])).
Proof.
  intros Horder. unfold ERPCovariances_fit.
  unfold bind at 1. unfold get at 1.
  fold (class_order (erp_classes self) y). rewrite Horder. reflexivity.
Qed.

Lemma mapM_nil_inv {A B : Type} (f : A -> result B) (l : list A) :
  mapM f l = Ok [] -> l = [].
Proof.
  destruct l as [|a l]; [reflexivity|]. cbn.
  destruct (f a); cbn; [|discriminate].
  destruct (mapM f l); cbn; discriminate.
Qed.

(** X7. When [fit] raises, the three configuration fields are as before
    and [P] is left bound to a Python list: the empty list when the
    class set is empty, and otherwise the list of the prototypes of
    exactly the classes that come, in class order, before the first
    class whose turn of the loop raises (that turn raises the exception
    [fit] raises). The prototype set of an earlier [fit] is gone. *)
Theorem ERPCovariances_fit_failure_state
  (X : ndarray3) (y : list label) (self : ERPCovariances) (e : exn) :
  fst (ERPCovariances_fit X y self) = Raise e ->
  (class_order (erp_classes self) y = [] /\
   snd (ERPCovariances_fit X y self) =
   mk_ERPCovariances (erp_classes self) (erp_estimator self) (erp_svd self)
                     (P_list [])) \/
  (exists (pre : list label) (c : label) (post : list label)
          (ps : list Matrix),
     class_order (erp_classes self) y = pre ++ c :: post /\
     mapM (class_prototype (erp_svd self) X y) pre = Ok ps /\
     length ps = length pre /\
     class_prototype (erp_svd self) X y c = Raise e /\
     snd (ERPCovariances_fit X y self) =
     mk_ERPCovariances (erp_classes self) (erp_estimator self) (erp_svd self)
                       (P_list ps)).
Proof.
  intros Hfail.
  destruct (mapM (class_prototype (erp_svd self) X y)
                 (class_order (erp_classes self) y)) as [protos|e'] eqn:Hmap.
  - destruct protos as [|p protos].
    + apply mapM_nil_inv in Hmap. left.
      rewrite (@fit_no_class X y self Hmap). split; [exact Hmap|reflexivity].
    + rewrite (@fit_ok X y self (p :: protos) Hmap) in Hfail
        by discriminate.
      discriminate.
  - destruct (@fit_raise X y self _ Hmap)
      as (pre & c & post & ps & Horder & Hpre & Hc & Hrun).
    rewrite Hrun in Hfail. cbn in Hfail. inversion Hfail; subst e'.
    right. exists pre, c, post, ps. rewrite Hrun.
    destruct (@mapM_Forall _ _ _ (fun _ => True) _ _ Hpre) as [_ Hl];
      [trivial|].
    repeat split; assumption.
Qed.

(** X8. The two failures [fit] produces by itself. With an empty class
    set (an empty configured subset, or no labels) it raises the
    [ValueError] of [numpy.concatenate]; with a non-empty class set and a
    label array whose length is not the number of trials it raises the
    [IndexError] of the boolean index, at the first class. Either way
    [P] is left bound to the empty list. *)
Theorem ERPCovariances_fit_errors
  (X : ndarray3) (y : list label) (self : ERPCovariances) :
  (class_order (erp_classes self) y = [] ->
   ERPCovariances_fit X y self =
   (Raise (ValueError "need at least one array to concatenate"),
    with_P self (P_list []))) /\
  (class_order (erp_classes self) y <> [] ->
   length y <> n_trials X ->
   ERPCovariances_fit X y self =
   (Raise (IndexError
             "boolean index did not match indexed array along axis 0"),
    with_P self (P_list []))).
Proof.
  split; [apply fit_no_class|].
  intros Hne Hlen.
  assert (Hproto : forall c : label,
            class_prototype (erp_svd self) X y c =
            Raise (IndexError
              "boolean index did not match indexed array along axis 0")).
  { intros c. unfold class_prototype, bool_index, eq_mask.
    rewrite length_map.
    destruct (Nat.eqb_spec (length y) (n_trials X)); [contradiction|].
    reflexivity. }
  destruct (class_order (erp_classes self) y) as [|c order] eqn:Horder;
    [contradiction|].
  assert (Hmap : mapM (class_prototype (erp_svd self) X y)
                      (class_order (erp_classes self) y) =
                 Raise (IndexError
                   "boolean index did not match indexed array along axis 0")).
  { rewrite Horder. cbn [mapM]. rewrite Hproto. reflexivity. }
  destruct (@fit_raise X y self _ Hmap)
    as (pre & c' & post & ps & Hsplit & Hpre & _ & Hrun).
  rewrite Hrun. destruct pre as [|c0 pre].
  - inversion Hpre. reflexivity.
  - cbn [mapM] in Hpre. rewrite Hproto in Hpre. discriminate.
Qed.

Lemma fit_leaves_with_P (X : ndarray3) (y : list label)
  (self : ERPCovariances) :
  exists v : P_attr, snd (ERPCovariances_fit X y self) = with_P self v.
Proof.
  destruct (mapM (class_prototype (erp_svd self) X y)
                 (class_order (erp_classes self) y)) as [protos|e] eqn:Hmap.
  - destruct protos as [|p protos].
    + apply mapM_nil_inv in Hmap. rewrite (@fit_no_class X y self Hmap).
      eexists. reflexivity.
    + rewrite (@fit_ok X y self (p :: protos) Hmap) by discriminate.
      eexists. reflexivity.
  - destruct (@fit_raise X y self _ Hmap)
      as (pre & c & post & ps & _ & _ & _ & Hrun).
    rewrite Hrun. eexists. reflexivity.
Qed.

(** X9. A [fit] supersedes whatever an earlier [fit] did, whether that
    one returned or raised: fitting on [(X2, y2)] after a [fit] on
    [(X1, y1)] gives the result and the object that fitting on
    [(X2, y2)] alone gives. *)
Theorem ERPCovariances_refit
  (X1 X2 : ndarray3) (y1 y2 : list label) (self : ERPCovariances) :
  ERPCovariances_fit X2 y2 (snd (ERPCovariances_fit X1 y1 self)) =
  ERPCovariances_fit X2 y2 self.
Proof.
  destruct (fit_leaves_with_P X1 y1 self) as [v ->]. reflexivity.
Qed.

(** X10. [transform] on an object that the constructor returned and that
    was never fitted raises [AttributeError] and leaves it as it is. *)
Theorem ERPCovariances_transform_unfitted
  (classes : option (list label)) (estimator : string) (svd : pyval)
  (self : ERPCovariances) (X : ndarray3) :
  ERPCovariances_init classes estimator svd = Ok self ->
  ERPCovariances_transform X self =
  (Raise (AttributeError "'ERPCovariances' object has no attribute 'P'"),
   self).
Proof.
  intros Hinit. apply init_ok_inv in Hinit. destruct Hinit as [-> _].
  reflexivity.
Qed.

(** ** [ERPCovariances.fit]: degenerate classes and ranks *)

Lemma filter_absent (c : label) (y : list label) :
  ~ In c y ->
  forall l : list Matrix,
    filter (fun p : Matrix * label => Z.eqb (snd p) c) (combine l y) = [].
Proof.
  induction y as [|d y IH]; intros Hc l.
  - destruct l; reflexivity.
  - destruct l as [|x l]; [reflexivity|]. cbn.
    destruct (Z.eqb_spec d c) as [->|Hne].
    + exfalso. apply Hc. left; reflexivity.
    + apply IH. intros Hin. apply Hc. right; exact Hin.
Qed.

Lemma map_constant {A B : Type} (b : B) (l : list A) :
  map (fun _ => b) l = repeat b (length l).
Proof. induction l as [|a l IH]; cbn; [|rewrite IH]; reflexivity. Qed.

Lemma class_mean_absent (X : ndarray3) (y : list label) (c : label) :
  ~ In c y ->
  class_mean X y c =
  repeat (repeat (sdivn szero 0) (n_samples X)) (n_channels X).
Proof.
  intros Hc. unfold class_mean, trials_of_class.
  rewrite (@filter_absent c y Hc). unfold numpy_mean_axis0. cbn.
  rewrite (map_constant (sdivn szero 0)), length_seq.
  rewrite (map_constant (repeat (sdivn szero 0) (n_samples X))), length_seq.
  reflexivity.
Qed.

Lemma mapM_total {A B : Type} (f : A -> result B) (g : A -> B) (l : list A) :
  (forall a, f a = Ok (g a)) -> mapM f l = Ok (map g l).
Proof.
  intros Hfg. induction l as [|a l IH]; cbn; [reflexivity|].
  rewrite Hfg, IH. reflexivity.
Qed.

(** X11. Without a rank, [fit] on aligned labels and a non-empty class
    set never raises, also when a configured class has no trial in the
    batch: the block of such a class is the [(C, T)] array whose every
    entry is the quotient of the empty sum by zero. *)
Theorem ERPCovariances_fit_absent_class
  (X : ndarray3) (y : list label) (self : ERPCovariances) :
  erp_svd self = PyNone ->
  length y = n_trials X ->
  class_order (erp_classes self) y <> [] ->
  exists protos : list Matrix,
    ERPCovariances_fit X y self =
    (Ok (with_P self (P_array (concat protos))),
     with_P self (P_array (concat protos))) /\
    length protos = length (class_order (erp_classes self) y) /\
    forall (i : nat) (c : label),
      nth_error (class_order (erp_classes self) y) i = Some c ->
      ~ In c y ->
      nth_error protos i =
      Some (repeat (repeat (sdivn szero 0) (n_samples X)) (n_channels X)).
Proof.
  intros Hsvd Hlen Hne.
  assert (Hmap : mapM (class_prototype (erp_svd self) X y)
                      (class_order (erp_classes self) y) =
                 Ok (map (class_mean X y) (class_order (erp_classes self) y))).
  { apply mapM_total. intros c. rewrite Hsvd.
    rewrite class_prototype_spec by (auto || exact Hlen). reflexivity. }
  exists (map (class_mean X y) (class_order (erp_classes self) y)).
  split.
  - apply (@fit_ok X y self _ Hmap).
    destruct (class_order (erp_classes self) y); [contradiction|discriminate].
  - split; [apply length_map|].
    intros i c Hi Hc.
    rewrite (@nth_error_map_some _ _ (class_mean X y) _ _ _ Hi).
    rewrite (@class_mean_absent X y c Hc). reflexivity.
Qed.

Lemma class_prototype_rank_zero (svd : pyval) (X : ndarray3)
  (y : list label) (c : label) (p : Matrix) :
  py_index svd = Ok 0 ->
  class_prototype svd X y c = Ok p ->
  p = [].
Proof.
  intros Hidx. unfold class_prototype.
  destruct (bool_index X (eq_mask y c)) as [Xc|e]; cbn [result_bind];
    [|discriminate].
  assert (Hnone : is_None svd = false) by (destruct svd; cbn in *; congruence).
  rewrite Hnone. cbn [negb].
  destruct (numpy_linalg_svd (numpy_mean_axis0 Xc)) as [[[U s] V]|e];
    cbn [result_bind]; [|discriminate].
  rewrite Hidx. cbn [result_bind]. intros H; inversion H.
  assert (Hlen : length (transpose (slice_columns 0 U)) = 0%nat).
  { rewrite length_transpose, cols_slice_columns.
    rewrite py_slice_stop_nonneg by lia. reflexivity. }
  apply length_zero_iff_nil in Hlen. rewrite Hlen. reflexivity.
Qed.

Lemma concat_all_nil {A : Type} (ls : list (list A)) :
  Forall (fun l => l = []) ls -> concat ls = [].
Proof.
  induction 1 as [|l ls Hl _ IH]; cbn; [reflexivity|].
  rewrite Hl, IH. reflexivity.
Qed.

Lemma rank_zero_prototype_set (X : ndarray3) (y : list label)
  (self fitted : ERPCovariances) :
  py_index (erp_svd self) = Ok 0 ->
  fst (ERPCovariances_fit X y self) = Ok fitted ->
  fitted = with_P self (P_array []).
Proof.
  intros Hidx Hfit. apply fit_inv in Hfit.
  destruct Hfit as (protos & Hmap & _ & ->).
  destruct (@mapM_Forall _ _ _ (fun p : Matrix => p = []) _ _ Hmap)
    as [Hall _].
  { intros c p Hp. exact (@class_prototype_rank_zero _ _ _ _ _ Hidx Hp). }
  rewrite (@concat_all_nil _ _ Hall). reflexivity.
Qed.

(** X12. The constructor accepts rank 0 ([svd=0], and [svd=False]); a
    [fit] that returns then stores a prototype set with no row at all,
    whatever the batch and the decomposition. *)
Theorem ERPCovariances_fit_rank_zero
  (classes : option (list label)) (estimator : string) (svd : pyval)
  (self fitted : ERPCovariances) (X : ndarray3) (y : list label) :
  py_index svd = Ok 0 ->
  ERPCovariances_init classes estimator svd = Ok self ->
  fst (ERPCovariances_fit X y self) = Ok fitted ->
  fitted = mk_ERPCovariances classes estimator svd (P_array []).
Proof.
  intros Hidx Hinit Hfit.
  apply init_ok_inv in Hinit. destruct Hinit as [-> _].
  exact (@rank_zero_prototype_set X y
           (mk_ERPCovariances classes estimator svd P_unset)
           fitted Hidx Hfit).
Qed.

(** X14. The rank is a slice bound and is clipped like one. After a
    [fit] that returns, on a batch with [C] channels and [n] classes,
    the prototype set has [C * n] rows for every rank [k >= C], so that
    a rank above the channel count reduces nothing, and
    [max (C + k) 0 * n] rows for a negative rank [k], which drops the
    last [-k] singular vectors. *)
Theorem ERPCovariances_fit_rank_clipped
  (classes : option (list label)) (estimator : string) (k : Z)
  (self fitted : ERPCovariances) (X : ndarray3) (y : list label) :
  svd_shape_contract ->
  ERPCovariances_init classes estimator (PyInt k) = Ok self ->
  fst (ERPCovariances_fit X y self) = Ok fitted ->
  let C := n_channels X in
  let n := length (class_order classes y) in
  exists P : Matrix,
    erp_P fitted = P_array P /\
    (Z.of_nat C <= k -> length P = (C * n)%nat) /\
    (k < 0 -> length P = (Z.to_nat (Z.max (Z.of_nat C + k) 0) * n)%nat).
Proof.
  intros Hsvd Hinit Hfit C n.
  apply init_ok_inv in Hinit. destruct Hinit as [-> _].
  apply fit_inv in Hfit. cbn [erp_svd erp_classes] in Hfit.
  destruct Hfit as (protos & Hmap & _ & ->).
  destruct (@mapM_Forall _ _ _
              (is_matrix (py_slice_stop C k) (n_samples X)) _ _ Hmap)
    as [Hall Hl].
  { intros c p Hp. exact (@class_prototype_shape _ _ _ _ _ Hsvd Hp). }
  apply concat_shape in Hall. destruct Hall as [Hrows _].
  rewrite Hl in Hrows. fold n in Hrows.
  exists (concat protos). split; [reflexivity|].
  rewrite Hrows. unfold py_slice_stop. split; intros Hk.
  - destruct (Z.ltb_spec k 0); [lia|]. f_equal. lia.
  - destruct (Z.ltb_spec k 0); [reflexivity | lia].
Qed.

Lemma for_each_ext {S A : Type} (body body' : A -> method S unit)
  (l : list A) :
  (forall a s, In a l -> body a s = body' a s) ->
  forall s : S, for_each l body s = for_each l body' s.
Proof.
  induction l as [|a l IH]; intros Hext s; [reflexivity|].
  cbn [for_each]. unfold bind. rewrite Hext by (left; reflexivity).
  destruct (body' a s) as [[u|e] s']; [|reflexivity].
  apply IH. intros b t Hb. apply Hext. right; exact Hb.
Qed.

Lemma eq_mask_agree (cl : list label) (y y' : list label) :
  Forall2 (fun l l' => forall c, In c cl -> (l = c <-> l' = c)) y y' ->
  forall c : label, In c cl -> eq_mask y c = eq_mask y' c.
Proof.
  intros Hyy c Hc. unfold eq_mask.
  induction Hyy as [|l l' y y' Hl _ IH]; cbn; [reflexivity|].
  rewrite IH. f_equal.
  destruct (Z.eqb_spec l c) as [Heq|Hne], (Z.eqb_spec l' c) as [Heq'|Hne'];
    try reflexivity.
  - exfalso. apply Hne'. apply (Hl c Hc). exact Heq.
  - exfalso. apply Hne. apply (Hl c Hc). exact Heq'.
Qed.

(** X15. With a configured class subset, [fit] looks at the labels only
    to tell, for each configured class, which trials carry it: two
    label arrays that agree on that give the same result and the same
    object, so the labels of the trials of other classes do not
    matter. *)
Theorem ERPCovariances_fit_other_labels
  (X : ndarray3) (y y' : list label) (cl : list label)
  (self : ERPCovariances) :
  erp_classes self = Some cl ->
  Forall2 (fun l l' => forall c, In c cl -> (l = c <-> l' = c)) y y' ->
  ERPCovariances_fit X y self = ERPCovariances_fit X y' self.
Proof.
  intros Hcl Hyy.
  unfold ERPCovariances_fit, set_P, bind, get, put. rewrite Hcl.
  rewrite (@for_each_ext _ _ (fit_class X y) (fit_class X y') cl);
    [reflexivity|].
  intros c t Hc. unfold fit_class.
  rewrite (@eq_mask_agree cl y y' Hyy c Hc). reflexivity.
Qed.

(** ** [XdawnCovariances] *)

(** X16. With [applyfilters=False], [XdawnCovariances.transform] is the
    [transform] of an [ERPCovariances] with the same estimator whose
    prototype set is the evoked responses of the filter. *)
Theorem XdawnCovariances_without_filters_is_ERPCovariances
  (self : XdawnCovariances) (E : Matrix) (X : ndarray3)
  (classes : option (list label)) (svd : pyval) :
  applyfilters self = false ->
  evokeds_ (Xd self) = Some E ->
  fst (XdawnCovariances_transform X self) =
  fst (ERPCovariances_transform X
         (mk_ERPCovariances classes (xdawn_estimator self) svd (P_array E))).
Proof.
  intros Happly Hev.
  unfold XdawnCovariances_transform, ERPCovariances_transform, Xdawn_evokeds.
  run_method. rewrite Happly, Hev. cbn [erp_P erp_estimator].
  destruct (covariances_EP X E (xdawn_estimator self)); reflexivity.
Qed.

(** X17. After [fit_transform(X, y)] has returned, [transform(X)] on the
    object returns the same matrices again and changes nothing. *)
Theorem XdawnCovariances_fit_transform_then_transform
  (self fitted : XdawnCovariances) (X : ndarray3) (y : list label)
  (covmats : list Matrix) :
  XdawnCovariances_fit_transform X y self = (Ok covmats, fitted) ->
  XdawnCovariances_transform X fitted = (Ok covmats, fitted).
Proof.
  unfold XdawnCovariances_fit_transform, bind.
  destruct (XdawnCovariances_fit X y self) as [[r|e] s]; [|discriminate].
  pose proof (XdawnCovariances_transform_readonly s X) as Hro.
  destruct (XdawnCovariances_transform X s) as [r' s'] eqn:Hrun.
  cbn in Hro. subst s'. intros H; inversion H; subst.
  exact Hrun.
Qed.

End Properties.

(** * Concrete runs on the exact instance *)

#[local] Existing Instance Demo.rationals.
#[local] Existing Instance Demo.externals.

Lemma Demo_svd_shape : @svd_shape_contract Demo.rationals Demo.externals.
Proof.
  intros P U Vh s. cbn. unfold Demo.svd_sorted_diagonal.
  destruct (Demo.sorted_diagonal P); [|discriminate].
  intros H; inversion H; subst. unfold Demo.identity. split.
  - rewrite length_map, length_seq. reflexivity.
  - apply Forall_map, Forall_forall. intros i _.
    rewrite length_map, length_seq. reflexivity.
Qed.

Lemma Demo_est_shape : @est_shape_contract Demo.rationals Demo.externals.
Proof.
  intros name est M. cbn. unfold Demo.registry.
  destruct (String.eqb name "scm"); [|discriminate].
  intros H; inversion H; subst. unfold Demo.scm. split.
  - apply length_map.
  - apply Forall_map, Forall_forall. intros a _. apply length_map.
Qed.

Lemma Demo_X2_ndarray : is_ndarray3 Demo.X2.
Proof. split; [reflexivity|]. repeat constructor. Qed.

Lemma ERPCovariances_init_svd_check_witness :
  ERPCovariances_init None "scm" (PyFloat 25 (-1)) =
    Raise (TypeError "svd must be None or int") /\
  ERPCovariances_init None "scm" (PyInt 2) =
    Ok (mk_ERPCovariances None "scm" (PyInt 2) P_unset).
Proof.
  split.
  - apply (@ERPCovariances_init_svd_check Demo.rationals None "scm"
             (PyFloat 25 (-1))); [discriminate | reflexivity].
  - apply (@ERPCovariances_init_svd_check Demo.rationals None "scm" (PyInt 2)).
    right; reflexivity.
Defined.

Lemma CospCovariances_init_window_witness :
  exists k : Z,
    CospCovariances_init 101 100 (Demo.q 0) None None None false =
    Some (mk_CospCovariances (2 ^ k) (Demo.q 0) None None None false) /\
    2 ^ k = 128.
Proof.
  destruct (@CospCovariances_init_window Demo.rationals 100 (Demo.q 0)
              None None None false 101)
    as (k & _ & Hrun & _ & _ & H100 & _).
  - unfold nextpow2_fuel. simpl. lia.
  - exists k. split; [exact Hrun | apply H100; reflexivity].
Defined.

Lemma ERPCovariances_fit_prototype_set_witness :
  fst (ERPCovariances_fit Demo.X3 Demo.y3
         (mk_ERPCovariances None "scm" PyNone P_unset)) =
  Ok (mk_ERPCovariances None "scm" PyNone
        (P_array [[Demo.q 1; Demo.q 0]; [Demo.q 0; Demo.q 1];
                  [Demo.q 4; Demo.q 0]; [Demo.q 0; Demo.q 2]])) /\
  nth 0 (nth 0 (class_mean Demo.X3 Demo.y3 3) []) (Demo.q 0) = Demo.q 1.
Proof.
  destruct (@ERPCovariances_fit_prototype_set Demo.rationals Demo.externals
              None "scm" PyNone
              (mk_ERPCovariances None "scm" PyNone P_unset)
              Demo.X3 Demo.y3)
    as (Hfit & _ & Hmean).
  - exact Demo_svd_shape.
  - reflexivity.
  - reflexivity.
  - discriminate.
  - split.
    + rewrite Hfit. vm_compute. reflexivity.
    + etransitivity; [apply (Hmean 3 0%nat 0%nat); cbn; lia|].
      vm_compute. reflexivity.
Defined.

(** C3. The code at [svd=3] on the two-channel batch [Demo.X2] with
    labels [[5; 3]]: the constructor and [fit] return, each prototype
    has two rows where the claim and the docstring of the class ("the
    number of components passed in svd") give three, and the prototype
    set of the two classes has four rows, not six. *)
Lemma ERPCovariances_fit_rank_above_channels :
  exists (self fitted : @ERPCovariances Demo.rationals)
         (P p3 p5 : Demo.QMatrix),
    ERPCovariances_init None "scm" (PyInt 3) = Ok self /\
    ERPCovariances_fit Demo.X2 Demo.y2 self = (Ok fitted, fitted) /\
    erp_P fitted = P_array P /\
    class_order (erp_classes self) Demo.y2 = [3; 5] /\
    class_prototype (PyInt 3) Demo.X2 Demo.y2 3 = Ok p3 /\
    class_prototype (PyInt 3) Demo.X2 Demo.y2 5 = Ok p5 /\
    P = p3 ++ p5 /\
    is_matrix 2 2 p3 /\ is_matrix 2 2 p5 /\
    ~ is_matrix 3 2 p3 /\ ~ is_matrix 3 2 p5 /\
    length P = 4%nat /\ length P <> (3 * 2)%nat.
Proof.
  exists (mk_ERPCovariances None "scm" (PyInt 3) P_unset).
  exists (Demo.fitted (PyInt 3) (Demo.mean3 ++ Demo.mean5)).
  exists (Demo.mean3 ++ Demo.mean5), Demo.mean3, Demo.mean5.
  split; [reflexivity|].
  split; [vm_compute; reflexivity|].
  split; [reflexivity|].
  split; [reflexivity|].
  split; [vm_compute; reflexivity|].
  split; [vm_compute; reflexivity|].
  split; [reflexivity|].
  split; [split; [reflexivity | repeat constructor]|].
  split; [split; [reflexivity | repeat constructor]|].
  split; [intros [H _]; discriminate|].
  split; [intros [H _]; discriminate|].
  split; [reflexivity | discriminate].
Qed.

Lemma ERPCovariances_transform_shape_witness :
  exists covmats : list Demo.QMatrix,
    ERPCovariances_transform Demo.X2
      (Demo.fitted (PyInt 1) [[Demo.q 2; Demo.q 0]; [Demo.q 4; Demo.q 0]]) =
    (Ok covmats,
     Demo.fitted (PyInt 1) [[Demo.q 2; Demo.q 0]; [Demo.q 4; Demo.q 0]]) /\
    length covmats = 2%nat /\
    Forall (is_matrix (1 * 2 + 2) (1 * 2 + 2)) covmats.
Proof.
  destruct (@ERPCovariances_transform_shape Demo.rationals Demo.externals
              None "scm" (PyInt 1)
              (mk_ERPCovariances None "scm" (PyInt 1) P_unset)
              (Demo.fitted (PyInt 1)
                 [[Demo.q 2; Demo.q 0]; [Demo.q 4; Demo.q 0]])
              Demo.X2 Demo.X2 Demo.y2 Demo.scm)
    as (covmats & P & Hrun & Hlen & HP & Hall & _ & Hrank).
  - exact Demo_svd_shape.
  - exact Demo_est_shape.
  - reflexivity.
  - vm_compute. reflexivity.
  - reflexivity.
  - exact Demo_X2_ndarray.
  - reflexivity.
  - reflexivity.
  - exists covmats. split; [exact Hrun|]. split; [exact Hlen|].
    rewrite (Hrank 1 eq_refl) in Hall by (cbn; lia). exact Hall.
Defined.

(** C4. The code at [svd=3] on the two-channel batch [Demo.X2] with
    labels [[5; 3]]: after [fit], [transform] of the same batch returns
    matrices of side 2 * 2 + 2 = 6, where the claim and the docstring
    of [transform] ([n_channels + n_classes * svd]) give
    3 * 2 + 2 = 8. *)
Lemma ERPCovariances_transform_rank_above_channels :
  exists (self fitted : @ERPCovariances Demo.rationals)
         (c1 c2 : Demo.QMatrix),
    ERPCovariances_init None "scm" (PyInt 3) = Ok self /\
    ERPCovariances_fit Demo.X2 Demo.y2 self = (Ok fitted, fitted) /\
    length (class_order None Demo.y2) = 2%nat /\
    n_channels Demo.X2 = 2%nat /\
    ERPCovariances_transform Demo.X2 fitted = (Ok [c1; c2], fitted) /\
    is_matrix 6 6 c1 /\ is_matrix 6 6 c2 /\
    ~ is_matrix (3 * 2 + 2) (3 * 2 + 2) c1 /\
    ~ is_matrix (3 * 2 + 2) (3 * 2 + 2) c2.
Proof.
  eexists. eexists. eexists. eexists.
  split; [reflexivity|].
  split; [vm_compute; reflexivity|].
  split; [reflexivity|].
  split; [reflexivity|].
  split; [vm_compute; reflexivity|].
  split; [split; [reflexivity | repeat constructor]|].
  split; [split; [reflexivity | repeat constructor]|].
  split; intros [H _]; discriminate.
Qed.

Lemma CospCovariances_transform_calls_witness :
  CospCovariances_transform Demo.X2 (mk_Cosp_state Demo.cosp []) =
  (Ok [ [[[Demo.q 16; Demo.q 0]; [Demo.q 0; Demo.q 4]]];
        [[[Demo.q 4; Demo.q 0]; [Demo.q 0; Demo.q 1]]] ],
   mk_Cosp_state Demo.cosp
     [mk_cospectrum_call Demo.mean5 128 (Demo.q 0) None None None;
      mk_cospectrum_call Demo.mean3 128 (Demo.q 0) None None None]).
Proof.
  apply (@CospCovariances_transform_calls Demo.rationals Demo.externals
           Demo.cosp [] Demo.X2
           [ [[[(Demo.q 16, Demo.q 1); (Demo.q 0, Demo.q 1)];
               [(Demo.q 0, Demo.q 1); (Demo.q 4, Demo.q 1)]]];
             [[[(Demo.q 4, Demo.q 1); (Demo.q 0, Demo.q 1)];
               [(Demo.q 0, Demo.q 1); (Demo.q 1, Demo.q 1)]]] ]).
  - exact Demo_X2_ndarray.
  - vm_compute. reflexivity.
Defined.

Lemma Demo_xdawn_fit :
  XdawnCovariances_fit Demo.X2 Demo.y2
    (XdawnCovariances_init 4 true None "scm") = (Ok Demo.xdawn, Demo.xdawn).
Proof. vm_compute. reflexivity. Qed.

Lemma transforms_preserve_order_witness :
  (exists est : Demo.QMatrix -> Demo.QMatrix,
     nth_error
       (Demo.returned
          (fst (Covariances_transform Demo.X2 (mk_Covariances "scm")))) 1 =
     Some (est Demo.mean3)) /\
  (exists (est : Demo.QMatrix -> Demo.QMatrix) (P : Demo.QMatrix),
     nth_error
       (Demo.returned
          (fst (ERPCovariances_transform Demo.X2
                  (Demo.fitted PyNone (Demo.mean3 ++ Demo.mean5))))) 1 =
     Some (est (super_trial P Demo.mean3))) /\
  (exists (est : Demo.QMatrix -> Demo.QMatrix) (E : Demo.QMatrix),
     nth_error
       (Demo.returned (fst (XdawnCovariances_transform Demo.X2 Demo.xdawn)))
       1 =
     Some (est (super_trial E
                  (XdawnCovariances_project Demo.xdawn Demo.mean3)))) /\
  (exists o : list Demo.QMatrix,
     nth_error
       (Demo.returned
          (fst (CospCovariances_transform Demo.X2
                  (mk_Cosp_state Demo.cosp [])))) 1 = Some o /\
     CospCovariances_trial Demo.cosp Demo.mean3 = Ok o).
Proof.
  destruct (@transforms_preserve_order Demo.rationals Demo.externals)
    as (Hcov & Herp & Hxdawn & Hcosp).
  split; [|split; [|split]].
  - destruct (Hcov (mk_Covariances "scm") Demo.X2 _ eq_refl)
      as (est & _ & _ & Hnth).
    exists est. apply (Hnth 1%nat). reflexivity.
  - destruct (Herp (Demo.fitted PyNone (Demo.mean3 ++ Demo.mean5)) Demo.X2
                   _ eq_refl) as (est & P & _ & _ & _ & Hnth).
    exists est, P. apply (Hnth 1%nat). reflexivity.
  - destruct (Hxdawn Demo.xdawn Demo.X2 _ eq_refl)
      as (est & E & _ & _ & _ & Hnth).
    exists est, E. apply (Hnth 1%nat). reflexivity.
  - destruct (Hcosp (mk_Cosp_state Demo.cosp []) Demo.X2 _ Demo_X2_ndarray
                    eq_refl) as (_ & Hnth).
    apply (Hnth 1%nat). reflexivity.
Defined.

Lemma transform_reads_only_witness :
  (exists covmats : list Demo.QMatrix,
     twice (Covariances_transform Demo.X2) (mk_Covariances "scm") =
     (Ok (covmats, covmats), mk_Covariances "scm")) /\
  (exists covmats : list Demo.QMatrix,
     twice (ERPCovariances_transform Demo.X2)
       (Demo.fitted PyNone (Demo.mean3 ++ Demo.mean5)) =
     (Ok (covmats, covmats),
      Demo.fitted PyNone (Demo.mean3 ++ Demo.mean5))) /\
  (exists covmats : list Demo.QMatrix,
     twice (XdawnCovariances_transform Demo.X2) Demo.xdawn =
     (Ok (covmats, covmats), Demo.xdawn)) /\
  (exists outs : list (list Demo.QMatrix),
     fst (twice (CospCovariances_transform Demo.X2)
            (mk_Cosp_state Demo.cosp [])) = Ok (outs, outs)).
Proof.
  destruct (@transform_reads_only Demo.rationals Demo.externals)
    as (Hcov & Herp & Hxdawn & Hcosp).
  split; [|split; [|split]].
  - eexists. apply (Hcov (mk_Covariances "scm") Demo.X2). reflexivity.
  - eexists.
    apply (Herp (Demo.fitted PyNone (Demo.mean3 ++ Demo.mean5)) Demo.X2).
    reflexivity.
  - eexists. apply (Hxdawn Demo.xdawn Demo.X2). reflexivity.
  - eexists.
    apply (Hcosp (mk_Cosp_state Demo.cosp []) Demo.X2). reflexivity.
Defined.

Lemma ERPCovariances_fit_default_class_order_witness :
  ERPCovariances_fit Demo.X2 Demo.y2
    (mk_ERPCovariances None "scm" PyNone P_unset) =
  (Ok (Demo.fitted PyNone (Demo.mean3 ++ Demo.mean5)),
   Demo.fitted PyNone (Demo.mean3 ++ Demo.mean5)) /\
  numpy_unique Demo.y2 = [3; 5].
Proof.
  destruct (@ERPCovariances_fit_default_class_order Demo.rationals
              Demo.externals "scm" PyNone
              (mk_ERPCovariances None "scm" PyNone P_unset)
              Demo.X2 Demo.y2 [Demo.mean3; Demo.mean5])
    as (_ & _ & _ & Hfit & Huniq & _).
  - reflexivity.
  - reflexivity.
  - discriminate.
  - reflexivity.
  - split; [exact Hfit | exact Huniq].
Defined.

(** * Concrete runs for the further properties *)

Lemma _nextpow2_closed_form_witness :
  _nextpow2 8 100 = Some 128 /\ _nextpow2 7 100 = None.
Proof.
  destruct (_nextpow2_closed_form 100 8) as [Hrun _].
  destruct (_nextpow2_closed_form 100 7) as [_ Hshort].
  split.
  - apply Hrun. vm_compute. lia.
  - apply Hshort. vm_compute. lia.
Defined.

Lemma _nextpow2_bounds_witness :
  _nextpow2 8 100 = Some 128 /\ 100 <= 128 /\ 128 < 2 * 100.
Proof.
  destruct (@_nextpow2_bounds 100 8 128 eq_refl) as (Hle & Hlt & _).
  split; [reflexivity|]. split; [exact Hle | apply Hlt; lia].
Defined.

Lemma _nextpow2_monotone_witness :
  _nextpow2 8 100 = Some 128 /\ _nextpow2 9 129 = Some 256 /\ 128 <= 256.
Proof.
  split; [reflexivity|]. split; [reflexivity|].
  apply (@_nextpow2_monotone 100 129 8 9 128 256); [lia | reflexivity..].
Defined.

Lemma CospCovariances_init_idempotent_witness :
  _window (mk_CospCovariances (SC := Demo.rationals) 128 (Demo.q 0)
             None None None true) = 128.
Proof.
  apply (@CospCovariances_init_idempotent Demo.rationals 8 8 100
           (Demo.q 0) (Demo.q 0) None None None None None None false true
           (mk_CospCovariances (SC := Demo.rationals) 128 (Demo.q 0)
              None None None false)
           (mk_CospCovariances (SC := Demo.rationals) 128 (Demo.q 0)
              None None None true));
    reflexivity.
Defined.

Lemma Demo_X3_ndarray : is_ndarray3 Demo.X3.
Proof. split; [reflexivity|]. repeat constructor. Qed.

Lemma CospCovariances_transform_failing_trial_witness :
  @CospCovariances_transform Demo.rationals Demo.externals_checked Demo.X3
    (mk_Cosp_state Demo.cosp []) =
  (Raise (ValueError "flat channel"),
   mk_Cosp_state Demo.cosp
     [call_of Demo.cosp Demo.mean5; call_of Demo.cosp Demo.flat]).
Proof.
  apply (@CospCovariances_transform_failing_trial Demo.rationals
           Demo.externals_checked Demo.cosp [] Demo.X3
           [Demo.mean5] [Demo.mean3] Demo.flat
           [[[[Demo.q 16; Demo.q 0]; [Demo.q 0; Demo.q 4]]]]
           (ValueError "flat channel")).
  - exact Demo_X3_ndarray.
  - reflexivity.
  - vm_compute. reflexivity.
  - reflexivity.
Defined.

Lemma ERPCovariances_fit_failure_state_witness :
  (exists p : Demo.FMatrix,
     @ERPCovariances_fit Demo.floats Demo.float_externals Demo.FX2 Demo.y2
       (@mk_ERPCovariances Demo.floats (Some [3; 9]) "scm" (PyInt 1)
          (P_array ([[Demo.f 7; Demo.f 7]] : Demo.FMatrix))) =
     (Raise (LinAlgError "SVD did not converge"),
      @mk_ERPCovariances Demo.floats (Some [3; 9]) "scm" (PyInt 1)
        (P_list [p])) /\
     is_matrix 1 2 p) /\
  exists (pre : list label) (c : label) (post : list label)
         (ps : list Demo.FMatrix),
    [3; 9] = pre ++ c :: post /\
    length ps = length pre /\
    @class_prototype Demo.floats Demo.float_externals (PyInt 1) Demo.FX2
      Demo.y2 c = Raise (LinAlgError "SVD did not converge").
Proof.
  split.
  { eexists. split; [vm_compute; reflexivity|].
    split; [reflexivity | repeat constructor]. }
  destruct (@ERPCovariances_fit_failure_state Demo.floats
              Demo.float_externals Demo.FX2 Demo.y2
              (@mk_ERPCovariances Demo.floats (Some [3; 9]) "scm" (PyInt 1)
                 (P_array ([[Demo.f 7; Demo.f 7]] : Demo.FMatrix)))
              (LinAlgError "SVD did not converge"))
    as [[Hempty _]|(pre & c & post & ps & Horder & _ & Hlen & Hc & _)].
  - vm_compute. reflexivity.
  - cbn in Hempty. discriminate Hempty.
  - exists pre, c, post, ps. repeat split; assumption.
Defined.

Lemma ERPCovariances_fit_errors_witness :
  ERPCovariances_fit Demo.X2 Demo.y2
    (mk_ERPCovariances (Some []) "scm" PyNone P_unset) =
  (Raise (ValueError "need at least one array to concatenate"),
   mk_ERPCovariances (Some []) "scm" PyNone (P_list [])) /\
  ERPCovariances_fit Demo.X2 [5]
    (mk_ERPCovariances None "scm" PyNone P_unset) =
  (Raise (IndexError
            "boolean index did not match indexed array along axis 0"),
   mk_ERPCovariances None "scm" PyNone (P_list [])).
Proof.
  split.
  - apply (proj1 (@ERPCovariances_fit_errors Demo.rationals Demo.externals
                    Demo.X2 Demo.y2
                    (mk_ERPCovariances (Some []) "scm" PyNone P_unset))).
    reflexivity.
  - apply (proj2 (@ERPCovariances_fit_errors Demo.rationals Demo.externals
                    Demo.X2 [5]
                    (mk_ERPCovariances None "scm" PyNone P_unset)));
      discriminate.
Defined.

Lemma ERPCovariances_transform_unfitted_witness :
  ERPCovariances_transform Demo.X2
    (mk_ERPCovariances None "scm" (PyInt 1) P_unset) =
  (Raise (AttributeError "'ERPCovariances' object has no attribute 'P'"),
   mk_ERPCovariances None "scm" (PyInt 1) P_unset).
Proof.
  apply (@ERPCovariances_transform_unfitted Demo.rationals Demo.externals
           None "scm" (PyInt 1)).
  reflexivity.
Defined.

Lemma ERPCovariances_fit_absent_class_witness :
  exists protos : list Demo.QMatrix,
    fst (ERPCovariances_fit Demo.X2 Demo.y2
           (mk_ERPCovariances (Some [3; 9]) "scm" PyNone P_unset)) =
    Ok (mk_ERPCovariances (Some [3; 9]) "scm" PyNone
          (P_array (concat protos))) /\
    nth_error protos 1 =
    Some (repeat (repeat (Demo.Qdivn (Demo.q 0) 0) 2) 2).
Proof.
  destruct (@ERPCovariances_fit_absent_class Demo.rationals Demo.externals
              Demo.X2 Demo.y2
              (mk_ERPCovariances (Some [3; 9]) "scm" PyNone P_unset))
    as (protos & Hfit & _ & Hnan).
  - reflexivity.
  - reflexivity.
  - discriminate.
  - exists protos. split; [rewrite Hfit; reflexivity|].
    apply (Hnan 1%nat 9); [reflexivity|].
    cbn. intros [H|[H|[]]]; discriminate.
Defined.

Lemma ERPCovariances_fit_rank_zero_witness :
  fst (ERPCovariances_fit Demo.X2 Demo.y2
         (mk_ERPCovariances None "scm" (PyInt 0) P_unset)) =
  Ok (mk_ERPCovariances None "scm" (PyInt 0) (P_array [])).
Proof.
  destruct (fst (ERPCovariances_fit Demo.X2 Demo.y2
                   (mk_ERPCovariances None "scm" (PyInt 0) P_unset)))
    as [fitted|e] eqn:Hfit; [|vm_compute in Hfit; discriminate].
  f_equal.
  apply (@ERPCovariances_fit_rank_zero Demo.rationals Demo.externals
           None "scm" (PyInt 0)
           (mk_ERPCovariances None "scm" (PyInt 0) P_unset) fitted
           Demo.X2 Demo.y2); [reflexivity | reflexivity | exact Hfit].
Defined.

Lemma ERPCovariances_fit_rank_clipped_witness :
  exists P : Demo.QMatrix,
    erp_P (Demo.fitted (PyInt 3) (Demo.mean3 ++ Demo.mean5)) = P_array P /\
    length P = (2 * 2)%nat.
Proof.
  destruct (@ERPCovariances_fit_rank_clipped Demo.rationals Demo.externals
              None "scm" 3
              (mk_ERPCovariances None "scm" (PyInt 3) P_unset)
              (Demo.fitted (PyInt 3) (Demo.mean3 ++ Demo.mean5))
              Demo.X2 Demo.y2)
    as (P & HP & Habove & _).
  - exact Demo_svd_shape.
  - reflexivity.
  - vm_compute. reflexivity.
  - exists P. split; [exact HP|]. apply Habove. cbn. lia.
Defined.

Lemma ERPCovariances_fit_other_labels_witness :
  ERPCovariances_fit Demo.X2 [5; 3]
    (mk_ERPCovariances (Some [3]) "scm" PyNone P_unset) =
  ERPCovariances_fit Demo.X2 [7; 3]
    (mk_ERPCovariances (Some [3]) "scm" PyNone P_unset).
Proof.
  apply (@ERPCovariances_fit_other_labels Demo.rationals Demo.externals
           Demo.X2 [5; 3] [7; 3] [3]).
  - reflexivity.
  - constructor; [|constructor; [|constructor]].
    + intros c [<-|[]]. split; discriminate.
    + intros c _. reflexivity.
Defined.

Lemma XdawnCovariances_without_filters_is_ERPCovariances_witness :
  fst (XdawnCovariances_transform Demo.X2 Demo.xdawn_unfiltered) =
  fst (ERPCovariances_transform Demo.X2
         (Demo.fitted PyNone [[Demo.q 3; Demo.q 0];
                              [Demo.q 0; QArith_base.Qmake 3 2]])).
Proof.
  apply (@XdawnCovariances_without_filters_is_ERPCovariances Demo.rationals
           Demo.externals Demo.xdawn_unfiltered
           [[Demo.q 3; Demo.q 0]; [Demo.q 0; QArith_base.Qmake 3 2]]
           Demo.X2 None PyNone); reflexivity.
Defined.

Lemma XdawnCovariances_fit_transform_then_transform_witness :
  exists covmats : list Demo.QMatrix,
    XdawnCovariances_transform Demo.X2 Demo.xdawn =
    (Ok covmats, Demo.xdawn).
Proof.
  eexists.
  apply (@XdawnCovariances_fit_transform_then_transform Demo.rationals
           Demo.externals (XdawnCovariances_init 4 true None "scm")
           Demo.xdawn Demo.X2 Demo.y2).
  vm_compute. reflexivity.
Defined.
